(** * An authenticated HTTP request wrapper: token store, interceptors, facade

    Shallow embedding of [src/core/request/token.ts] (the storage-backed
    token manager) and of the request module built on axios
    ([createRequest], its request and response interceptors, and the
    [request] facade).

    Conventions.
    - JavaScript strings are [string]; [null]/[undefined] is [None].
    - An optional boolean flag is [option bool]; it is tested with the
      JavaScript truthiness of the source ([truthy]).
    - [localStorage] is a finite map from keys to strings.
    - A promise is its settled outcome: [Resolved v] or [Thrown e].
    - The transport behind axios, the refresh endpoint, the error handler
      and the token manager are collaborators: the first two are
      parameters of the development, the error handler is observed through
      the trace of events, and the token manager is an interface. *)

From Stdlib Require Import Ascii.
From stdpp Require Import gmap strings list pretty.

(** ** JavaScript truthiness *)

Module Js.

(** [!!flag] for an optional boolean property. *)
Definition truthy (flag : option bool) : bool :=
  match flag with
  | Some true => true
  | _ => false
  end.

(** [!!s] for a [string | null | undefined]: the empty string is falsy. *)
Definition truthy_string (s : option string) : bool :=
  match s with
  | Some EmptyString => false
  | Some _ => true
  | None => false
  end.

(** [!!n] for an optional number ([0] is falsy; NaN is not modelled). *)
Definition truthy_number (n : option Z) : bool :=
  match n with
  | Some 0%Z => false
  | Some _ => true
  | None => false
  end.

(** [a || b] on strings. *)
Definition or_string (a : option string) (b : string) : string :=
  match a with
  | Some EmptyString => b
  | Some s => s
  | None => b
  end.

(** [a || b] on numbers. *)
Definition or_number (a : option Z) (b : Z) : Z :=
  match a with
  | Some 0%Z => b
  | Some n => n
  | None => b
  end.

End Js.

(** ** token.ts *)

Definition TOKEN_KEY : string := "auth_token".
Definition REFRESH_TOKEN_KEY : string := "refresh_token".

(** The [TokenManager] interface of [types.ts], over a store of type [S]. *)
Class TokenManager (S : Type) := {
  getToken : S → option string;
  setToken : string → S → S;
  removeToken : S → S;
  getRefreshToken : S → option string;
  setRefreshToken : string → S → S;
  removeRefreshToken : S → S;
}.

(** [localStorage]: [getItem] is lookup, [setItem] is insert, [removeItem]
    is delete. *)
Abbreviation LocalStorage := (gmap string string).

Module LocalStorageTokenManager.

Definition getToken (ls : LocalStorage) : option string := ls !! TOKEN_KEY.
Definition setToken (token : string) (ls : LocalStorage) : LocalStorage :=
  <[TOKEN_KEY := token]> ls.
Definition removeToken (ls : LocalStorage) : LocalStorage :=
  delete TOKEN_KEY ls.
Definition getRefreshToken (ls : LocalStorage) : option string :=
  ls !! REFRESH_TOKEN_KEY.
Definition setRefreshToken (token : string) (ls : LocalStorage) : LocalStorage :=
  <[REFRESH_TOKEN_KEY := token]> ls.
Definition removeRefreshToken (ls : LocalStorage) : LocalStorage :=
  delete REFRESH_TOKEN_KEY ls.

End LocalStorageTokenManager.

#[export] Instance localStorageTokenManager : TokenManager LocalStorage := {|
  getToken := LocalStorageTokenManager.getToken;
  setToken := LocalStorageTokenManager.setToken;
  removeToken := LocalStorageTokenManager.removeToken;
  getRefreshToken := LocalStorageTokenManager.getRefreshToken;
  setRefreshToken := LocalStorageTokenManager.setRefreshToken;
  removeRefreshToken := LocalStorageTokenManager.removeRefreshToken;
|}.

(** What the interface promises without saying it: each slot reads back
    what was last written to it, reads nothing once removed, and is not
    affected by the other slot. *)
Class LawfulTokenManager (S : Type) `{TokenManager S} : Prop := {
  getToken_setToken : ∀ t s, getToken (setToken t s) = Some t;
  getToken_removeToken : ∀ s, getToken (removeToken s) = None;
  getToken_setRefreshToken : ∀ t s, getToken (setRefreshToken t s) = getToken s;
  getToken_removeRefreshToken : ∀ s, getToken (removeRefreshToken s) = getToken s;
  getRefreshToken_setRefreshToken : ∀ t s, getRefreshToken (setRefreshToken t s) = Some t;
  getRefreshToken_removeRefreshToken : ∀ s, getRefreshToken (removeRefreshToken s) = None;
  getRefreshToken_setToken : ∀ t s, getRefreshToken (setToken t s) = getRefreshToken s;
  getRefreshToken_removeToken : ∀ s, getRefreshToken (removeToken s) = getRefreshToken s;
}.

(** ** Strings: [String.prototype.replace] with a string pattern *)

Module JsString.

(** [Some rest] when [s = pattern ++ rest]. *)
Fixpoint stripPrefix (pattern s : string) : option string :=
  match pattern, s with
  | EmptyString, _ => Some s
  | String p pattern', String c s' =>
      if Ascii.eqb p c then stripPrefix pattern' s' else None
  | String _ _, EmptyString => None
  end.

(** The text before and after the leftmost occurrence of [pattern] in
    [s] (what [s.indexOf(pattern)] locates), or [None]. *)
Fixpoint splitAtFirst (pattern s : string) : option (string * string) :=
  match stripPrefix pattern s with
  | Some after => Some (EmptyString, after)
  | None =>
      match s with
      | EmptyString => None
      | String c s' =>
          match splitAtFirst pattern s' with
          | Some (before, after) => Some (String c before, after)
          | None => None
          end
      end
  end.

(** ECMAScript GetSubstitution for a string pattern: there are no
    capture groups, so only [$$], [$&], [$`] and [$'] are special in the
    replacement text; [$1], [$<] and a lone [$] stand for themselves. *)
Fixpoint GetSubstitution (matched before after replacement : string) : string :=
  match replacement with
  | EmptyString => EmptyString
  | String c rest =>
      if Ascii.eqb c "$"%char then
        match rest with
        | EmptyString => String c EmptyString
        | String d rest' =>
            if Ascii.eqb d "$"%char then String "$"%char (GetSubstitution matched before after rest')
            else if Ascii.eqb d "&"%char then matched +:+ GetSubstitution matched before after rest'
            else if Ascii.eqb d "`"%char then before +:+ GetSubstitution matched before after rest'
            else if Ascii.eqb d "'"%char then after +:+ GetSubstitution matched before after rest'
            else String c (GetSubstitution matched before after rest)
        end
      else String c (GetSubstitution matched before after rest)
  end.

(** [s.replace(pattern, replacement)] where [pattern] is a string: only
    the leftmost occurrence is replaced. *)
Definition replace (s pattern replacement : string) : string :=
  match splitAtFirst pattern s with
  | None => s
  | Some (before, after) =>
      before +:+ GetSubstitution pattern before after replacement +:+ after
  end.

(** [s] occurs in [t] as a substring. *)
Definition occursIn (s t : string) : Prop :=
  ∃ before after, t = before +:+ s +:+ after.

(** The character [c] does not occur in [s]. *)
Fixpoint lacks (c : ascii) (s : string) : bool :=
  match s with
  | EmptyString => true
  | String d s' => negb (Ascii.eqb c d) && lacks c s'
  end.

End JsString.

(** ** Data model of the request module *)

(** A path variable is a [string | number]. Numbers are the integer-valued
    ones; fractional and exponent forms are outside the model. *)
Inductive PathValue :=
| PString (s : string)
| PNumber (n : Z).

(** [Number.isSafeInteger]: the integers that are JavaScript numbers and
    that [String] prints as plain decimal digits. *)
Definition isSafeInteger (n : Z) : bool :=
  bool_decide (- (2 ^ 53) < n < 2 ^ 53)%Z.

(** The values of the model that stand for a JavaScript value: any string,
    and the safe integers. *)
Definition representable (value : PathValue) : bool :=
  match value with
  | PString _ => true
  | PNumber n => isSafeInteger n
  end.

(** [String(value)], for a [representable] value. *)
Definition stringify (value : PathValue) : string :=
  match value with
  | PString s => s
  | PNumber n => pretty n
  end.

(** The request configuration handed to axios, restricted to the fields
    this module reads or writes. [pathVariables] is the list that
    [Object.entries] yields, in its enumeration order. *)
Record RequestConfig := mkRequestConfig {
  url : string;
  headers : gmap string string;
  ignoreAuth : option bool;
  silentError : option bool;
  throwError : option bool;
  pathVariables : option (list (string * PathValue));
  _retry : option bool;
}.

Definition set_headers (h : gmap string string) (c : RequestConfig) : RequestConfig :=
  mkRequestConfig (url c) h (ignoreAuth c) (silentError c) (throwError c)
    (pathVariables c) (_retry c).

Definition set_url (u : string) (c : RequestConfig) : RequestConfig :=
  mkRequestConfig u (headers c) (ignoreAuth c) (silentError c) (throwError c)
    (pathVariables c) (_retry c).

Definition set_retry (r : option bool) (c : RequestConfig) : RequestConfig :=
  mkRequestConfig (url c) (headers c) (ignoreAuth c) (silentError c) (throwError c)
    (pathVariables c) r.

(** [Response<T>]: the tagged union of the source; the constructor is the
    [success] tag. *)
Inductive Response (T : Type) :=
| Success (data : T) (errorCode : option string) (errorMessage : option string)
| Failure (data : option T) (errorCode : Z) (errorMessage : string).
Arguments Success {T} data errorCode errorMessage.
Arguments Failure {T} data errorCode errorMessage.

(** The part of [AxiosResponse] the success handler looks at, and the
    transport status it does not look at. *)
Module AxiosResponse.
Record t (D : Type) := mk { data : D; status : Z }.
Arguments mk {D} data status.
Arguments data {D} _.
Arguments status {D} _.
End AxiosResponse.

(** [error.response]: a status and an optional body with an optional
    [errorMessage]. *)
Module ErrorResponse.
Record body := mkBody { errorMessage : option string }.
Record t := mk { status : Z; data : option body }.
End ErrorResponse.

Module AxiosError.
Record t := mk {
  message : string;
  config : RequestConfig;
  response : option ErrorResponse.t;
}.
End AxiosError.

Module ApiError.
Record t := mk {
  name : string;
  message : string;
  response : option ErrorResponse.t;
}.
End ApiError.

(** What can be thrown through this module. *)
Inductive JsError :=
| Error (message : string)
| ApiErr (e : ApiError.t)
| AxiosErr (e : AxiosError.t).

(** A settled promise. *)
Inductive Outcome (A : Type) :=
| Resolved (value : A)
| Thrown (e : JsError).
Arguments Resolved {A} value.
Arguments Thrown {A} e.

(** The pair of tokens the refresh endpoint answers with. *)
Record TokenPair := mkTokenPair { access : string; refresh : string }.

(** What the transport behind axios does with a request: an HTTP response
    that passes [validateStatus], or a failure with an optional response. *)
Inductive TransportResult (T : Type) :=
| Fulfilled (response : AxiosResponse.t (Response T))
| Rejected (message : string) (response : option ErrorResponse.t).
Arguments Fulfilled {T} response.
Arguments Rejected {T} message response.

(** Calls to the collaborators, in the order they happen. [EvMarkRetry]
    records the assignment [originalRequest._retry = true]. *)
Inductive Event :=
| EvSend (config : RequestConfig)
| EvMarkRetry
| EvRefresh (refreshToken : string)
| EvShowError (message : string).

(** The state the module works on: the token store and the history. *)
Record World (S : Type) := mkWorld { tokens : S; trace : list Event }.
Arguments mkWorld {S} tokens trace.
Arguments tokens {S} _.
Arguments trace {S} _.

Definition log {S} (ev : Event) (w : World S) : World S :=
  mkWorld (tokens w) (trace w ++ [ev]).

Definition update_tokens {S} (f : S → S) (w : World S) : World S :=
  mkWorld (f (tokens w)) (trace w).

Definition isSend (ev : Event) : bool :=
  match ev with EvSend _ => true | _ => false end.
Definition isMarkRetry (ev : Event) : bool :=
  match ev with EvMarkRetry => true | _ => false end.
Definition isRefresh (ev : Event) : bool :=
  match ev with EvRefresh _ => true | _ => false end.
Definition isShowError (ev : Event) : bool :=
  match ev with EvShowError _ => true | _ => false end.

(** How many events of [evs] satisfy [p]. *)
Fixpoint count (p : Event → bool) (evs : list Event) : nat :=
  match evs with
  | [] => 0
  | ev :: evs => (if p ev then 1 else 0) + count p evs
  end.

(** ** createRequest: the interceptors *)

Section Interceptors.

Context {S : Type} `{TokenManager S} {T : Type}.

(** The transport behind the axios instance and the refresh endpoint
    ([refreshToken] of the auth interface). Both may answer according to
    everything that happened before. *)
Variable transport : list Event → RequestConfig → TransportResult T.
Variable refreshToken : list Event → string → Outcome (Response TokenPair).

(** The body of the [forEach] over [Object.entries(pathVariables)]. *)
Definition substituteEntry (url : string) (entry : string * PathValue) : string :=
  JsString.replace url ("{" +:+ entry.1 +:+ "}") (stringify entry.2).

Definition substitutePathVariables
    (entries : list (string * PathValue)) (url : string) : string :=
  foldl substituteEntry url entries.

(** Token injection, the first step of the request interceptor. *)
Definition injectToken (store : S) (config : RequestConfig) : RequestConfig :=
  if negb (Js.truthy (ignoreAuth config)) then
    match getToken store with
    | Some token =>
        if Js.truthy_string (Some token)
        then set_headers (<["Authorization" := "Bearer " +:+ token]> (headers config)) config
        else config
    | None => config
    end
  else config.

(** The request interceptor (its fulfilled handler; the rejected handler
    passes the error on). *)
Definition requestInterceptor (store : S) (config : RequestConfig) : RequestConfig :=
  let config := injectToken store config in
  match pathVariables config with
  | Some entries => set_url (substitutePathVariables entries (url config)) config
  | None => config
  end.

(** The response interceptor, fulfilled handler. *)
Definition onFulfilled
    (response : AxiosResponse.t (Response T)) : Outcome (Response T) :=
  match AxiosResponse.data response with
  | Failure _ _ errorMessage =>
      Thrown (ApiErr (ApiError.mk "ApiError" errorMessage
        (Some (ErrorResponse.mk 400
                 (Some (ErrorResponse.mkBody (Some errorMessage)))))))
  | Success _ _ _ as data => Resolved data
  end.

(** [error.response?.data?.errorMessage]. *)
Definition responseErrorMessage (error : AxiosError.t) : option string :=
  r ← AxiosError.response error;
  b ← ErrorResponse.data r;
  ErrorResponse.errorMessage b.

(** [error.response?.status]. *)
Definition responseStatus (error : AxiosError.t) : option Z :=
  ErrorResponse.status <$> AxiosError.response error.

(** [error.response?.data?.errorMessage || error.message]. *)
Definition bestMessage (error : AxiosError.t) : string :=
  Js.or_string (responseErrorMessage error) (AxiosError.message error).

(** [error.response?.status || 500]. *)
Definition errorCodeOf (error : AxiosError.t) : Z :=
  Js.or_number (responseStatus error) 500.

(** [error.response?.status === 401]. *)
Definition isUnauthorized (error : AxiosError.t) : bool :=
  bool_decide (responseStatus error = Some 401%Z).

(** "Handle errors based on configuration": the tail of the rejected
    handler. *)
Definition handleError (error : AxiosError.t) (w : World S)
    : Outcome (Response T) * World S :=
  let originalRequest := AxiosError.config error in
  let w := if negb (Js.truthy (silentError originalRequest))
           then log (EvShowError (bestMessage error)) w else w in
  if Js.truthy (throwError originalRequest)
  then (Thrown (AxiosErr error), w)
  else (Resolved (Failure None (errorCodeOf error) (bestMessage error)), w).

(** The events that [handleError] adds: one report, unless silenced. *)
Definition reportOf (error : AxiosError.t) : list Event :=
  if Js.truthy (silentError (AxiosError.config error)) then []
  else [EvShowError (bestMessage error)].

(** The [catch (refreshError)] block. *)
Definition catchRefreshError (refreshError : JsError) (w : World S)
    : Outcome (Response T) * World S :=
  (Thrown refreshError, update_tokens removeRefreshToken (update_tokens removeToken w)).

(** The response interceptor, rejected handler. [reissue] is the call
    [requestInstance(originalRequest)]; it gives [None] when the model
    has no fuel left for it. Assigning [_retry] changes the
    configuration object that [error.config] refers to, so the error seen
    afterwards carries the marked configuration. *)
Definition onRejected
    (reissue : RequestConfig → World S → option (Outcome (Response T) * World S))
    (error : AxiosError.t) (w : World S)
    : option (Outcome (Response T) * World S) :=
  let originalRequest := AxiosError.config error in
  if isUnauthorized error && negb (Js.truthy (_retry originalRequest)) then
    let originalRequest := set_retry (Some true) originalRequest in
    let error := AxiosError.mk (AxiosError.message error) originalRequest
                   (AxiosError.response error) in
    let w := log EvMarkRetry w in
    match getRefreshToken (tokens w) with
    | Some refreshTokenValue =>
        if Js.truthy_string (Some refreshTokenValue) then
          match refreshToken (trace w) refreshTokenValue with
          | Resolved (Success data _ _) =>
              let w := log (EvRefresh refreshTokenValue) w in
              let w := update_tokens (setToken (access data)) w in
              let w := update_tokens (setRefreshToken (refresh data)) w in
              reissue originalRequest w
          | Resolved (Failure _ _ _) =>
              Some (handleError error (log (EvRefresh refreshTokenValue) w))
          | Thrown refreshError =>
              Some (catchRefreshError refreshError (log (EvRefresh refreshTokenValue) w))
          end
        else Some (catchRefreshError (Error "No refresh token available") w)
    | None => Some (catchRefreshError (Error "No refresh token available") w)
    end
  else Some (handleError error w).

(** A call of the axios instance: request interceptor, transport,
    response interceptor. The fuel bounds the nesting of re-issued calls. *)
Fixpoint requestInstance (fuel : nat) (config : RequestConfig) (w : World S)
    : option (Outcome (Response T) * World S) :=
  match fuel with
  | 0 => None
  | Datatypes.S fuel' =>
      let config := requestInterceptor (tokens w) config in
      match transport (trace w) config with
      | Fulfilled response => Some (onFulfilled response, log (EvSend config) w)
      | Rejected message response =>
          onRejected (requestInstance fuel')
            (AxiosError.mk message config response) (log (EvSend config) w)
      end
  end.

(** ** The module state and the [request] facade *)

Record AxiosInstance := mkAxiosInstance { baseURL : string; timeout : Z }.

(** [RequestOptions], without the two collaborators that the model takes
    from its context. *)
Record RequestOptions := mkRequestOptions {
  opt_baseURL : string;
  opt_timeout : option Z;
}.

(** The module-level [let requestInstance], undefined until
    [createRequest] runs. *)
Record ModuleState := mkModuleState { instance : option AxiosInstance }.

Definition initialModule : ModuleState := mkModuleState None.

Definition createRequest (options : RequestOptions) : ModuleState :=
  mkModuleState
    (Some (mkAxiosInstance (opt_baseURL options)
             (Js.or_number (opt_timeout options) 10000))).

Definition request (m : ModuleState) (fuel : nat) (args : RequestConfig) (w : World S)
    : option (Outcome (Response T) * World S) :=
  match instance m with
  | None =>
      Some (Thrown (Error "Request instance not initialized. Call createRequest first."), w)
  | Some _ => requestInstance fuel args w
  end.

End Interceptors.

(** ** Concrete scenarios *)

Module Scenario.

(** A store holding the access token "abc" and the refresh token "R1". *)
Definition store : LocalStorage :=
  <[REFRESH_TOKEN_KEY := "R1"]> (<[TOKEN_KEY := "abc"]> ∅).

(** A store holding an access token only. *)
Definition storeNoRefresh : LocalStorage := <[TOKEN_KEY := "abc"]> ∅.

Definition getUser : RequestConfig :=
  mkRequestConfig "/users/{id}" ∅ None None None (Some [("id", PNumber 1)]) None.

Definition getUserNoAuth : RequestConfig :=
  mkRequestConfig "/users/{id}" ∅ (Some true) None None (Some [("id", PNumber 1)]) None.

(** A template that names the same placeholder twice. *)
Definition getFriends : RequestConfig :=
  mkRequestConfig "/users/{id}/friends/{id}" ∅ None None None
    (Some [("id", PNumber 1)]) None.

Definition unauthorized : option ErrorResponse.t :=
  Some (ErrorResponse.mk 401 (Some (ErrorResponse.mkBody (Some "Unauthorized")))).

Definition serverError : option ErrorResponse.t :=
  Some (ErrorResponse.mk 503 (Some (ErrorResponse.mkBody (Some "Service down")))).

(** The first request is answered with 401, every later one with a
    success body. *)
Definition transportOnce401 (history : list Event) (config : RequestConfig)
    : TransportResult string :=
  if bool_decide (count isSend history = 0)
  then Rejected "Request failed with status code 401" unauthorized
  else Fulfilled (AxiosResponse.mk (Success "user 1" None None) 200).

(** A transport that answers 200 with a failure body. *)
Definition transportBusinessFailure (history : list Event) (config : RequestConfig)
    : TransportResult string :=
  Fulfilled (AxiosResponse.mk (Failure None 1001 "Name taken") 200).

Definition refreshSucceeds (history : list Event) (refreshToken : string)
    : Outcome (Response TokenPair) :=
  Resolved (Success (mkTokenPair "A2" "R2") None None).

Definition refreshRejects (history : list Event) (refreshToken : string)
    : Outcome (Response TokenPair) :=
  Thrown (Error "Network Error").

(** The refresh endpoint answers with a failure body. *)
Definition refreshFails (history : list Event) (refreshToken : string)
    : Outcome (Response TokenPair) :=
  Resolved (Failure None 400 "Refresh token expired").

Definition error401 (config : RequestConfig) : AxiosError.t :=
  AxiosError.mk "Request failed with status code 401" config unauthorized.

Definition error503 (config : RequestConfig) : AxiosError.t :=
  AxiosError.mk "Request failed with status code 503" config serverError.

Definition world : World LocalStorage := mkWorld store [].
Definition worldNoRefresh : World LocalStorage := mkWorld storeNoRefresh [].

(** A re-issue that is never reached. *)
Definition noReissue (config : RequestConfig) (w : World LocalStorage)
    : option (Outcome (Response string) * World LocalStorage) := None.

End Scenario.

(** ** The paths of a call *)

Section CallPaths.

Context {S : Type} `{TokenManager S} {T : Type}.
Variable transport : list Event → RequestConfig → TransportResult T.
Variable refreshToken : list Event → string → Outcome (Response TokenPair).

(** What [handleError] gives the caller. *)
Definition outcomeOf (error : AxiosError.t) : Outcome (Response T) :=
  if Js.truthy (throwError (AxiosError.config error))
  then Thrown (AxiosErr error)
  else Resolved (Failure None (errorCodeOf error) (bestMessage error)).

(** The seven ways a call of the instance on [config] in the world [w] can
    go, each with what the caller gets, the token store it leaves and the
    events it adds. [first] is the configuration as first sent, [second]
    the one sent again after a refresh. *)
Inductive CallPath (config : RequestConfig) (w : World S)
    : Outcome (Response T) → S → list Event → Prop :=
| PathFulfilled first response :
    first = requestInterceptor (tokens w) config →
    transport (trace w) first = Fulfilled response →
    CallPath config w (onFulfilled response) (tokens w) [EvSend first]
| PathTerminal first message response error :
    first = requestInterceptor (tokens w) config →
    transport (trace w) first = Rejected message response →
    error = AxiosError.mk message first response →
    isUnauthorized error = false ∨ Js.truthy (_retry first) = true →
    CallPath config w (outcomeOf error) (tokens w) (EvSend first :: reportOf error)
| PathNoRefreshToken first message response error :
    first = requestInterceptor (tokens w) config →
    transport (trace w) first = Rejected message response →
    error = AxiosError.mk message first response →
    isUnauthorized error = true →
    Js.truthy (_retry first) = false →
    Js.truthy_string (getRefreshToken (tokens w)) = false →
    CallPath config w (Thrown (Error "No refresh token available"))
      (removeRefreshToken (removeToken (tokens w))) [EvSend first; EvMarkRetry]
| PathRefreshRejected first message response error rt refreshError :
    first = requestInterceptor (tokens w) config →
    transport (trace w) first = Rejected message response →
    error = AxiosError.mk message first response →
    isUnauthorized error = true →
    Js.truthy (_retry first) = false →
    getRefreshToken (tokens w) = Some rt →
    rt ≠ "" →
    refreshToken (trace w ++ [EvSend first; EvMarkRetry]) rt = Thrown refreshError →
    CallPath config w (Thrown refreshError)
      (removeRefreshToken (removeToken (tokens w)))
      [EvSend first; EvMarkRetry; EvRefresh rt]
| PathRefreshFailed first message response marked rt data code text :
    first = requestInterceptor (tokens w) config →
    transport (trace w) first = Rejected message response →
    marked = AxiosError.mk message (set_retry (Some true) first) response →
    isUnauthorized marked = true →
    Js.truthy (_retry first) = false →
    getRefreshToken (tokens w) = Some rt →
    rt ≠ "" →
    refreshToken (trace w ++ [EvSend first; EvMarkRetry]) rt
      = Resolved (Failure data code text) →
    CallPath config w (outcomeOf marked) (tokens w)
      ([EvSend first; EvMarkRetry; EvRefresh rt] ++ reportOf marked)
| PathRetryFulfilled first message response rt pair code text store second response2 :
    first = requestInterceptor (tokens w) config →
    transport (trace w) first = Rejected message response →
    isUnauthorized (AxiosError.mk message first response) = true →
    Js.truthy (_retry first) = false →
    getRefreshToken (tokens w) = Some rt →
    rt ≠ "" →
    refreshToken (trace w ++ [EvSend first; EvMarkRetry]) rt
      = Resolved (Success pair code text) →
    store = setRefreshToken (refresh pair) (setToken (access pair) (tokens w)) →
    second = requestInterceptor store (set_retry (Some true) first) →
    transport (trace w ++ [EvSend first; EvMarkRetry; EvRefresh rt]) second
      = Fulfilled response2 →
    CallPath config w (onFulfilled response2) store
      [EvSend first; EvMarkRetry; EvRefresh rt; EvSend second]
| PathRetryRejected first message response rt pair code text store second
      message2 response2 error2 :
    first = requestInterceptor (tokens w) config →
    transport (trace w) first = Rejected message response →
    isUnauthorized (AxiosError.mk message first response) = true →
    Js.truthy (_retry first) = false →
    getRefreshToken (tokens w) = Some rt →
    rt ≠ "" →
    refreshToken (trace w ++ [EvSend first; EvMarkRetry]) rt
      = Resolved (Success pair code text) →
    store = setRefreshToken (refresh pair) (setToken (access pair) (tokens w)) →
    second = requestInterceptor store (set_retry (Some true) first) →
    transport (trace w ++ [EvSend first; EvMarkRetry; EvRefresh rt]) second
      = Rejected message2 response2 →
    error2 = AxiosError.mk message2 second response2 →
    CallPath config w (outcomeOf error2) store
      ([EvSend first; EvMarkRetry; EvRefresh rt; EvSend second] ++ reportOf error2).

End CallPaths.

(** ** More scenarios *)

Module Scenario2.

(** The example request with every report silenced. *)
Definition getUserSilent : RequestConfig :=
  mkRequestConfig "/users/{id}" ∅ None (Some true) None (Some [("id", PNumber 1)]) None.

(** The example request, already marked as retried by its caller. *)
Definition getUserMarked : RequestConfig :=
  mkRequestConfig "/users/{id}" ∅ None None None (Some [("id", PNumber 1)]) (Some true).

(** The example request, asking for failures to be thrown. *)
Definition getUserThrow : RequestConfig :=
  mkRequestConfig "/users/{id}" ∅ None None (Some true) (Some [("id", PNumber 1)]) None.

(** A transport that is down: every request is answered with 503. *)
Definition transportDown (history : list Event) (config : RequestConfig)
    : TransportResult string :=
  Rejected "Request failed with status code 503" Scenario.serverError.

(** A transport that answers every request with a success body. *)
Definition transportUp (history : list Event) (config : RequestConfig)
    : TransportResult string :=
  Fulfilled (AxiosResponse.mk (Success "user 1" None None) 200).

(** A store with a key of another part of the application beside the
    two tokens. *)
Definition storeWithTheme : LocalStorage := <["theme" := "dark"]> Scenario.store.

End Scenario2.

(** * Properties *)

(** ** Strings *)

Module JsStringFacts.
Import JsString.

Lemma append_nil (s : string) : "" +:+ s = s.
Proof. reflexivity. Qed.

Lemma append_cons (c : ascii) (s t : string) :
  String c s +:+ t = String c (s +:+ t).
Proof. reflexivity. Qed.

Lemma nonempty_ne (c : ascii) (s : string) : String c s ≠ "".
Proof. discriminate. Qed.

(** [String.append] does not unfold under [simpl]. *)
Ltac str_simpl := rewrite ?append_nil, ?append_cons in *.

Lemma stripPrefix_sound pattern s rest :
  stripPrefix pattern s = Some rest → s = pattern +:+ rest.
Proof.
  revert s. induction pattern as [|p pattern IH]; intros s; simpl.
  - by intros [= ->].
  - destruct s as [|c s]; [discriminate|].
    destruct (Ascii.eqb p c) eqn:E; [|discriminate].
    apply Ascii.eqb_eq in E as ->. intros Hs. str_simpl. by rewrite (IH _ Hs).
Qed.

Lemma stripPrefix_complete pattern rest :
  stripPrefix pattern (pattern +:+ rest) = Some rest.
Proof.
  induction pattern as [|p pattern IH]; str_simpl; simpl; [by destruct rest|].
  by rewrite Ascii.eqb_refl.
Qed.

Lemma splitAtFirst_eq pattern s :
  splitAtFirst pattern s =
    match stripPrefix pattern s with
    | Some after => Some (EmptyString, after)
    | None =>
        match s with
        | EmptyString => None
        | String c s' =>
            match splitAtFirst pattern s' with
            | Some (before, after) => Some (String c before, after)
            | None => None
            end
        end
    end.
Proof. by destruct s. Qed.

Lemma splitAtFirst_sound pattern s before after :
  splitAtFirst pattern s = Some (before, after) →
  s = before +:+ pattern +:+ after.
Proof.
  revert before. induction s as [|c s IH]; intros before;
    rewrite splitAtFirst_eq;
    (destruct (stripPrefix _ _) eqn:E;
      [intros [= <- <-]; exact (stripPrefix_sound _ _ _ E)|]); [done|].
  destruct (splitAtFirst pattern s) as [[b a]|] eqn:E'; [|discriminate].
  intros [= <- <-]. str_simpl. f_equal. by apply IH.
Qed.

Lemma splitAtFirst_leftmost pattern s before after :
  splitAtFirst pattern s = Some (before, after) →
  ∀ before' after', s = before' +:+ pattern +:+ after' →
    String.length before ≤ String.length before'.
Proof.
  revert before. induction s as [|c s IH]; intros before;
    rewrite splitAtFirst_eq;
    (destruct (stripPrefix _ _) eqn:E;
      [intros [= <- <-] ???; simpl; lia|]); [done|].
  destruct (splitAtFirst pattern s) as [[b a]|] eqn:E'; [|discriminate].
  intros [= <- <-] [|c' before'] after' Hs; str_simpl.
  - rewrite Hs, stripPrefix_complete in E. discriminate.
  - injection Hs as -> Hs. simpl.
    specialize (IH _ eq_refl _ _ Hs). lia.
Qed.

Lemma splitAtFirst_None pattern s :
  splitAtFirst pattern s = None → ¬ occursIn pattern s.
Proof.
  induction s as [|c s IH]; rewrite splitAtFirst_eq;
    (destruct (stripPrefix _ _) eqn:E; [discriminate|]).
  - intros _ ([|??] & after & Hs); str_simpl; [|discriminate].
    rewrite Hs, stripPrefix_complete in E. discriminate.
  - destruct (splitAtFirst pattern s) as [[b a]|] eqn:E'; [discriminate|].
    intros _ ([|c' before] & after & Hs); str_simpl.
    + rewrite Hs, stripPrefix_complete in E. discriminate.
    + injection Hs as -> Hs. apply IH; [done|]. by exists before, after.
Qed.

Lemma splitAtFirst_occurs pattern s :
  occursIn pattern s → is_Some (splitAtFirst pattern s).
Proof.
  intros Hocc. destruct (splitAtFirst pattern s) eqn:E; [done|].
  by apply splitAtFirst_None in E.
Qed.

(** A replacement text without [$] is inserted as it is. *)
Lemma GetSubstitution_plain matched before after replacement :
  lacks "$" replacement = true →
  GetSubstitution matched before after replacement = replacement.
Proof.
  induction replacement as [|c r IH]; cbn [GetSubstitution lacks]; [done|].
  rewrite (Ascii.eqb_sym c). intros [Hc Hr]%andb_prop.
  apply negb_true_iff in Hc. rewrite Hc. by rewrite IH.
Qed.

(** [replace] rewrites the leftmost occurrence, and only that one. *)
Lemma replace_leftmost s pattern replacement :
  lacks "$" replacement = true →
  occursIn pattern s →
  ∃ before after,
    s = before +:+ pattern +:+ after
    ∧ (∀ before' after', s = before' +:+ pattern +:+ after' →
         String.length before ≤ String.length before')
    ∧ replace s pattern replacement = before +:+ replacement +:+ after.
Proof.
  intros Hplain [[before after] Hsplit]%splitAtFirst_occurs.
  exists before, after. split_and!.
  - by apply splitAtFirst_sound.
  - by eapply splitAtFirst_leftmost.
  - unfold replace. by rewrite Hsplit, GetSubstitution_plain.
Qed.

(** Without an occurrence of the pattern the string is returned as is. *)
Lemma replace_absent s pattern replacement :
  ¬ occursIn pattern s → replace s pattern replacement = s.
Proof.
  intros Hno. unfold replace.
  destruct (splitAtFirst pattern s) as [[before after]|] eqn:E; [|done].
  destruct Hno. exists before, after. by apply splitAtFirst_sound.
Qed.

End JsStringFacts.

(** ** The storage-backed token manager *)

Lemma token_keys_distinct : TOKEN_KEY ≠ REFRESH_TOKEN_KEY.
Proof. discriminate. Qed.

Module LocalStorageFacts.
Import LocalStorageTokenManager.

Lemma storage_getToken_setToken t (ls : LocalStorage) : getToken (setToken t ls) = Some t.
Proof. apply lookup_insert_eq. Qed.

Lemma storage_getToken_removeToken (ls : LocalStorage) : getToken (removeToken ls) = None.
Proof. apply lookup_delete_eq. Qed.

Lemma storage_getToken_setRefreshToken t (ls : LocalStorage) :
  getToken (setRefreshToken t ls) = getToken ls.
Proof. apply lookup_insert_ne. by intros ?%symmetry%token_keys_distinct. Qed.

Lemma storage_getToken_removeRefreshToken (ls : LocalStorage) :
  getToken (removeRefreshToken ls) = getToken ls.
Proof. apply lookup_delete_ne. by intros ?%symmetry%token_keys_distinct. Qed.

Lemma storage_getRefreshToken_setRefreshToken t (ls : LocalStorage) :
  getRefreshToken (setRefreshToken t ls) = Some t.
Proof. apply lookup_insert_eq. Qed.

Lemma storage_getRefreshToken_removeRefreshToken (ls : LocalStorage) :
  getRefreshToken (removeRefreshToken ls) = None.
Proof. apply lookup_delete_eq. Qed.

Lemma storage_getRefreshToken_setToken t (ls : LocalStorage) :
  getRefreshToken (setToken t ls) = getRefreshToken ls.
Proof. apply lookup_insert_ne, token_keys_distinct. Qed.

Lemma storage_getRefreshToken_removeToken (ls : LocalStorage) :
  getRefreshToken (removeToken ls) = getRefreshToken ls.
Proof. apply lookup_delete_ne, token_keys_distinct. Qed.

End LocalStorageFacts.

#[export] Instance localStorage_lawful : LawfulTokenManager LocalStorage.
Proof.
  split; intros; simpl.
  - apply LocalStorageFacts.storage_getToken_setToken.
  - apply LocalStorageFacts.storage_getToken_removeToken.
  - apply LocalStorageFacts.storage_getToken_setRefreshToken.
  - apply LocalStorageFacts.storage_getToken_removeRefreshToken.
  - apply LocalStorageFacts.storage_getRefreshToken_setRefreshToken.
  - apply LocalStorageFacts.storage_getRefreshToken_removeRefreshToken.
  - apply LocalStorageFacts.storage_getRefreshToken_setToken.
  - apply LocalStorageFacts.storage_getRefreshToken_removeToken.
Qed.

(** C10. In the storage-backed token manager the two slots are independent:
    [setToken] and [removeToken] leave the value read by [getRefreshToken]
    unchanged, [setRefreshToken] and [removeRefreshToken] leave the value
    read by [getToken] unchanged, and a read right after a write returns the
    written value, for both slots. *)
Theorem local_storage_slots_independent :
  ∀ (ls : LocalStorage) (t : string),
    LocalStorageTokenManager.getRefreshToken (LocalStorageTokenManager.setToken t ls)
      = LocalStorageTokenManager.getRefreshToken ls
    ∧ LocalStorageTokenManager.getRefreshToken (LocalStorageTokenManager.removeToken ls)
      = LocalStorageTokenManager.getRefreshToken ls
    ∧ LocalStorageTokenManager.getToken (LocalStorageTokenManager.setRefreshToken t ls)
      = LocalStorageTokenManager.getToken ls
    ∧ LocalStorageTokenManager.getToken (LocalStorageTokenManager.removeRefreshToken ls)
      = LocalStorageTokenManager.getToken ls
    ∧ LocalStorageTokenManager.getToken (LocalStorageTokenManager.setToken t ls) = Some t
    ∧ LocalStorageTokenManager.getRefreshToken (LocalStorageTokenManager.setRefreshToken t ls)
      = Some t.
Proof.
  intros ls t. split_and!.
  - apply LocalStorageFacts.storage_getRefreshToken_setToken.
  - apply LocalStorageFacts.storage_getRefreshToken_removeToken.
  - apply LocalStorageFacts.storage_getToken_setRefreshToken.
  - apply LocalStorageFacts.storage_getToken_removeRefreshToken.
  - apply LocalStorageFacts.storage_getToken_setToken.
  - apply LocalStorageFacts.storage_getRefreshToken_setRefreshToken.
Qed.

(** ** The request interceptor *)

Section RequestInterceptorFacts.

Context {S : Type} `{TokenManager S}.

Lemma injectToken_fields (store : S) (config : RequestConfig) :
  url (injectToken store config) = url config
  ∧ pathVariables (injectToken store config) = pathVariables config
  ∧ ignoreAuth (injectToken store config) = ignoreAuth config
  ∧ silentError (injectToken store config) = silentError config
  ∧ throwError (injectToken store config) = throwError config
  ∧ _retry (injectToken store config) = _retry config.
Proof.
  unfold injectToken.
  destruct (negb _); [|done].
  destruct (getToken store) as [token|]; [|done].
  by destruct (Js.truthy_string _).
Qed.

Lemma requestInterceptor_flags (store : S) (config : RequestConfig) :
  silentError (requestInterceptor store config) = silentError config
  ∧ throwError (requestInterceptor store config) = throwError config
  ∧ _retry (requestInterceptor store config) = _retry config.
Proof.
  destruct (injectToken_fields store config) as (_ & _ & _ & ? & ? & ?).
  unfold requestInterceptor.
  by destruct (pathVariables (injectToken store config)).
Qed.

Lemma requestInterceptor_headers (store : S) (config : RequestConfig) :
  headers (requestInterceptor store config) = headers (injectToken store config).
Proof.
  unfold requestInterceptor.
  by destruct (pathVariables (injectToken store config)).
Qed.

(** The outgoing URL does not depend on the token store. *)
Lemma requestInterceptor_url (store : S) (config : RequestConfig) :
  url (requestInterceptor store config) =
    match pathVariables config with
    | Some entries => substitutePathVariables entries (url config)
    | None => url config
    end.
Proof.
  destruct (injectToken_fields store config) as (Hurl & Hpv & _).
  unfold requestInterceptor. rewrite Hpv.
  destruct (pathVariables config); simpl; by rewrite ?Hurl.
Qed.

(** X4. One entry whose text has no [$]: the leftmost [{key}] is replaced
    by the stringified value, later occurrences stay; an entry whose
    placeholder does not occur changes nothing. *)
Lemma substituteEntry_spec (url key : string) (value : PathValue) :
  JsString.lacks "$" (stringify value) = true →
  (JsString.occursIn ("{" +:+ key +:+ "}") url →
     ∃ before after,
       url = before +:+ ("{" +:+ key +:+ "}") +:+ after
       ∧ (∀ before' after', url = before' +:+ ("{" +:+ key +:+ "}") +:+ after' →
            String.length before ≤ String.length before')
       ∧ substituteEntry url (key, value) = before +:+ stringify value +:+ after)
  ∧ (¬ JsString.occursIn ("{" +:+ key +:+ "}") url →
       substituteEntry url (key, value) = url).
Proof.
  intros Hplain. split.
  - intros Hocc. by apply JsStringFacts.replace_leftmost.
  - intros Hno. by apply JsStringFacts.replace_absent.
Qed.

End RequestInterceptorFacts.

(** C7. With [ignoreAuth] unset and a (non-empty) access token in the store
    the request interceptor sets the Authorization header to exactly
    [Bearer <token>] and touches no other header; with [ignoreAuth] set,
    and when the store has no token (a missing or empty value, which the
    source's truthiness test treats alike), the headers are left as they
    are. *)
Theorem request_interceptor_authorization
    {S : Type} `{TokenManager S} (store : S) (config : RequestConfig) :
  (Js.truthy (ignoreAuth config) = false →
     ∀ token, getToken store = Some token → token ≠ "" →
       headers (requestInterceptor store config)
         = <["Authorization" := "Bearer " +:+ token]> (headers config))
  ∧ (Js.truthy (ignoreAuth config) = true →
       headers (requestInterceptor store config) = headers config)
  ∧ (Js.truthy_string (getToken store) = false →
       headers (requestInterceptor store config) = headers config).
Proof.
  rewrite requestInterceptor_headers. unfold injectToken. split_and!.
  - intros -> token -> Hne. simpl. by destruct token.
  - by intros ->.
  - intros Hnone. destruct (negb _); [|done].
    destruct (getToken store) as [token|]; [|done]. by rewrite Hnone.
Qed.

Lemma request_interceptor_authorization_witness :
  headers (requestInterceptor Scenario.store Scenario.getUser)
    = <["Authorization" := "Bearer abc"]> (headers Scenario.getUser)
  ∧ headers (requestInterceptor Scenario.store Scenario.getUserNoAuth)
    = headers Scenario.getUserNoAuth
  ∧ headers (requestInterceptor (∅ : LocalStorage) Scenario.getUser)
    = headers Scenario.getUser.
Proof.
  split_and!.
  - apply (proj1 (request_interceptor_authorization Scenario.store Scenario.getUser));
      [reflexivity | reflexivity | discriminate].
  - apply (proj1 (proj2
      (request_interceptor_authorization Scenario.store Scenario.getUserNoAuth)));
      reflexivity.
  - apply (proj2 (proj2
      (request_interceptor_authorization (∅ : LocalStorage) Scenario.getUser)));
      reflexivity.
Defined.

(** C6, at a template that names a placeholder twice: only the first
    [{id}] is replaced, the second one is sent as it is. *)
Theorem repeated_placeholder_only_first_replaced :
  ∀ (store : LocalStorage),
    url (requestInterceptor store Scenario.getFriends) = "/users/1/friends/{id}".
Proof. intros store. by rewrite requestInterceptor_url. Qed.

(** The scenario of the specification: one placeholder, a stored token. *)
Example scenario_get_user :
  url (requestInterceptor Scenario.store Scenario.getUser) = "/users/1"
  ∧ headers (requestInterceptor Scenario.store Scenario.getUser) !! "Authorization"
      = Some "Bearer abc".
Proof. split; reflexivity. Qed.


(** ** The response interceptor *)

Section ResponseInterceptorFacts.

Context {S : Type} `{TokenManager S} {T : Type}.
Variable transport : list Event → RequestConfig → TransportResult T.
Variable refreshToken : list Event → string → Outcome (Response TokenPair).

Lemma count_app (p : Event → bool) (evs evs' : list Event) :
  count p (evs ++ evs') = count p evs + count p evs'.
Proof. induction evs as [|ev evs IH]; simpl; [done|]. rewrite IH. lia. Qed.

Lemma count_isSend_zero (evs : list Event) (config : RequestConfig) :
  count isSend evs = 0 → EvSend config ∉ evs.
Proof.
  induction evs as [|ev evs IH]; simpl; intros Hcount Hin.
  - by apply elem_of_nil in Hin.
  - apply elem_of_cons in Hin as [<-|Hin]; [simpl in Hcount; lia|].
    apply IH; [|done]. destruct (isSend ev); lia.
Qed.

Lemma handleError_world (error : AxiosError.t) (w : World S) :
  (handleError (T:=T) error w).2 = mkWorld (tokens w) (trace w ++ reportOf error).
Proof.
  unfold handleError, reportOf.
  destruct (Js.truthy (silentError _)), (Js.truthy (throwError _)); simpl;
    rewrite ?app_nil_r; by destruct w.
Qed.

Lemma handleError_outcome (error : AxiosError.t) (w : World S) :
  (handleError (T:=T) error w).1 =
    if Js.truthy (throwError (AxiosError.config error))
    then Thrown (AxiosErr error)
    else Resolved (Failure None (errorCodeOf error) (bestMessage error)).
Proof. unfold handleError. by destruct (Js.truthy (throwError _)). Qed.

Lemma reportOf_counts (error : AxiosError.t) :
  count isSend (reportOf error) = 0
  ∧ count isMarkRetry (reportOf error) = 0
  ∧ count isRefresh (reportOf error) = 0.
Proof. unfold reportOf. by destruct (Js.truthy _). Qed.

(** Outside the refresh flow the rejected handler is the generic handling. *)
Lemma onRejected_terminal reissue (error : AxiosError.t) (w : World S) :
  isUnauthorized error = false ∨ Js.truthy (_retry (AxiosError.config error)) = true →
  onRejected (T:=T) refreshToken reissue error w = Some (handleError error w).
Proof. unfold onRejected. by intros [-> | ->]; rewrite ?andb_false_r. Qed.

Lemma requestInstance_S (fuel : nat) (config : RequestConfig) (w : World S) :
  requestInstance transport refreshToken (Datatypes.S fuel) config w =
    match transport (trace w) (requestInterceptor (tokens w) config) with
    | Fulfilled response =>
        Some (onFulfilled response, log (EvSend (requestInterceptor (tokens w) config)) w)
    | Rejected message response =>
        onRejected refreshToken (requestInstance transport refreshToken fuel)
          (AxiosError.mk message (requestInterceptor (tokens w) config) response)
          (log (EvSend (requestInterceptor (tokens w) config)) w)
    end.
Proof. reflexivity. Qed.

(** A call whose configuration is already marked is settled by one send. *)
Lemma requestInstance_retried (fuel : nat) (config : RequestConfig) (w : World S) :
  Js.truthy (_retry config) = true →
  requestInstance transport refreshToken (Datatypes.S fuel) config w =
    Some match transport (trace w) (requestInterceptor (tokens w) config) with
         | Fulfilled response =>
             (onFulfilled response, log (EvSend (requestInterceptor (tokens w) config)) w)
         | Rejected message response =>
             handleError (AxiosError.mk message (requestInterceptor (tokens w) config) response)
               (log (EvSend (requestInterceptor (tokens w) config)) w)
         end.
Proof.
  intros Hretry. rewrite requestInstance_S.
  destruct (transport (trace w) _) as [response|message response]; [done|].
  apply onRejected_terminal. right. cbn [AxiosError.config].
  by rewrite (proj2 (proj2 (requestInterceptor_flags (tokens w) config))).
Qed.

Lemma requestInstance_retried_world
    (fuel : nat) (config : RequestConfig) (w : World S) out w' :
  Js.truthy (_retry config) = true →
  requestInstance transport refreshToken (Datatypes.S fuel) config w = Some (out, w') →
  tokens w' = tokens w
  ∧ ∃ evs, trace w' = trace w ++ EvSend (requestInterceptor (tokens w) config) :: evs
      ∧ count isSend evs = 0 ∧ count isMarkRetry evs = 0 ∧ count isRefresh evs = 0.
Proof.
  intros Hretry. rewrite requestInstance_retried by done.
  destruct (transport _ _) as [response|message response].
  - intros [= <- <-]. split; [done|]. by exists [].
  - set (error := AxiosError.mk _ _ _). intros [= Heq].
    apply (f_equal snd) in Heq. cbn [snd] in Heq. subst w'.
    rewrite handleError_world. simpl. split; [done|].
    exists (reportOf error). rewrite <-app_assoc. split; [done|].
    apply reportOf_counts.
Qed.


(** What the refresh flow does, branch by branch, for a 401 failure of a
    call that is not marked yet. [marked] is the error as it is seen after
    the assignment to [_retry]. *)
Lemma onRejected_refresh_flow reissue (error : AxiosError.t) (w : World S) :
  isUnauthorized error = true →
  Js.truthy (_retry (AxiosError.config error)) = false →
  let retried := set_retry (Some true) (AxiosError.config error) in
  let marked := AxiosError.mk (AxiosError.message error) retried (AxiosError.response error) in
  let w1 := log EvMarkRetry w in
  onRejected (T:=T) refreshToken reissue error w =
    if Js.truthy_string (getRefreshToken (tokens w)) then
      match getRefreshToken (tokens w) with
      | Some rt =>
          match refreshToken (trace w1) rt with
          | Resolved (Success data _ _) =>
              reissue retried
                (update_tokens (setRefreshToken (refresh data))
                   (update_tokens (setToken (access data)) (log (EvRefresh rt) w1)))
          | Resolved (Failure _ _ _) => Some (handleError marked (log (EvRefresh rt) w1))
          | Thrown refreshError =>
              Some (catchRefreshError refreshError (log (EvRefresh rt) w1))
          end
      | None => None
      end
    else Some (catchRefreshError (Error "No refresh token available") w1).
Proof.
  intros H401 Hretry retried marked w1. unfold onRejected.
  rewrite H401, Hretry. cbn [andb negb]. fold retried marked w1.
  change (tokens w1) with (tokens w).
  destruct (getRefreshToken (tokens w)) as [rt|]; [|done].
  by destruct (Js.truthy_string (Some rt)).
Qed.

(** C4. A 401 failure of a call that is not marked yet, with no refresh
    token in the store (missing or empty): the flow fails with the error
    "No refresh token available", the catch block removes both tokens and
    the error is rethrown; the refresh endpoint is not called. *)
Theorem missing_refresh_token_clears_and_rethrows
    reissue (error : AxiosError.t) (w : World S) :
  LawfulTokenManager S →
  isUnauthorized error = true →
  Js.truthy (_retry (AxiosError.config error)) = false →
  Js.truthy_string (getRefreshToken (tokens w)) = false →
  ∃ w',
    onRejected (T:=T) refreshToken reissue error w
      = Some (Thrown (Error "No refresh token available"), w')
    ∧ tokens w' = removeRefreshToken (removeToken (tokens w))
    ∧ getToken (tokens w') = None
    ∧ getRefreshToken (tokens w') = None
    ∧ trace w' = trace w ++ [EvMarkRetry].
Proof.
  intros Hlaw H401 Hretry Hnone.
  rewrite onRejected_refresh_flow, Hnone by done.
  eexists. split; [reflexivity|]. simpl. split_and!; [done| | |done].
  - by rewrite getToken_removeRefreshToken, getToken_removeToken.
  - by rewrite getRefreshToken_removeRefreshToken.
Qed.

(** C2, as the code has it. When the refresh call is rejected (it throws),
    both tokens are removed and the rejection is thrown to the caller,
    whatever [silentError] and [throwError] say and without a report to
    the error handler. When the refresh call resolves with a failure
    response, no token is removed and the 401 failure goes through the
    generic handling. *)
Theorem refresh_rejection_clears_and_rethrows
    reissue (error : AxiosError.t) (w : World S) (rt : string) :
  LawfulTokenManager S →
  isUnauthorized error = true →
  Js.truthy (_retry (AxiosError.config error)) = false →
  getRefreshToken (tokens w) = Some rt →
  rt ≠ "" →
  (∀ refreshError,
     refreshToken (trace w ++ [EvMarkRetry]) rt = Thrown refreshError →
     ∃ w',
       onRejected (T:=T) refreshToken reissue error w = Some (Thrown refreshError, w')
       ∧ tokens w' = removeRefreshToken (removeToken (tokens w))
       ∧ getToken (tokens w') = None
       ∧ getRefreshToken (tokens w') = None
       ∧ trace w' = trace w ++ [EvMarkRetry; EvRefresh rt])
  ∧ (∀ data code message,
       refreshToken (trace w ++ [EvMarkRetry]) rt = Resolved (Failure data code message) →
       let marked :=
         AxiosError.mk (AxiosError.message error)
           (set_retry (Some true) (AxiosError.config error)) (AxiosError.response error) in
       onRejected (T:=T) refreshToken reissue error w
         = Some (handleError marked
                   (mkWorld (tokens w) (trace w ++ [EvMarkRetry; EvRefresh rt])))
       ∧ (handleError (T:=T) marked
            (mkWorld (tokens w) (trace w ++ [EvMarkRetry; EvRefresh rt]))).2
         = mkWorld (tokens w) (trace w ++ [EvMarkRetry; EvRefresh rt] ++ reportOf marked)).
Proof.
  intros Hlaw H401 Hretry Hrt Hne.
  assert (Js.truthy_string (Some rt) = true) as Htruthy by (by destruct rt).
  split.
  - intros refreshError Hrefresh.
    rewrite onRejected_refresh_flow, Hrt, Htruthy by done. cbn [log trace].
    rewrite Hrefresh. eexists. split; [reflexivity|].
    simpl. rewrite <-app_assoc. split_and!; [done| | |done].
    + by rewrite getToken_removeRefreshToken, getToken_removeToken.
    + by rewrite getRefreshToken_removeRefreshToken.
  - intros data code message Hrefresh marked.
    rewrite onRejected_refresh_flow, Hrt, Htruthy by done. cbn [log trace].
    rewrite Hrefresh. unfold log. cbn [tokens trace]. rewrite <-app_assoc.
    split; [done|]. rewrite handleError_world. cbn [tokens trace].
    by rewrite <-app_assoc.
Qed.

(** C3. When the refresh call succeeds with [{access, refresh}], both
    tokens are written to the store, then the original call is issued
    again, once, with its [_retry] flag set, and what that call gives is
    what the caller gets. *)
Theorem refresh_success_stores_tokens_then_reissues
    (fuel : nat) (error : AxiosError.t) (w : World S) (rt : string)
    (pair : TokenPair) (code message : option string) :
  LawfulTokenManager S →
  isUnauthorized error = true →
  Js.truthy (_retry (AxiosError.config error)) = false →
  getRefreshToken (tokens w) = Some rt →
  rt ≠ "" →
  refreshToken (trace w ++ [EvMarkRetry]) rt = Resolved (Success pair code message) →
  let retried := set_retry (Some true) (AxiosError.config error) in
  let w1 := mkWorld (setRefreshToken (refresh pair) (setToken (access pair) (tokens w)))
              (trace w ++ [EvMarkRetry; EvRefresh rt]) in
  ∃ out w' evs,
    onRejected refreshToken (requestInstance transport refreshToken (Datatypes.S fuel)) error w
      = Some (out, w')
    ∧ requestInstance transport refreshToken (Datatypes.S fuel) retried w1 = Some (out, w')
    ∧ tokens w' = tokens w1
    ∧ getToken (tokens w') = Some (access pair)
    ∧ getRefreshToken (tokens w') = Some (refresh pair)
    ∧ trace w' = trace w1 ++ EvSend (requestInterceptor (tokens w1) retried) :: evs
    ∧ Js.truthy (_retry (requestInterceptor (tokens w1) retried)) = true
    ∧ count isSend evs = 0
    ∧ count isRefresh evs = 0.
Proof.
  intros Hlaw H401 Hretry Hrt Hne Hrefresh retried w1.
  assert (Js.truthy_string (Some rt) = true) as Htruthy by (by destruct rt).
  rewrite onRejected_refresh_flow, Hrt, Htruthy by done.
  change (trace (log EvMarkRetry w)) with (trace w ++ [EvMarkRetry]).
  rewrite Hrefresh. fold retried.
  set (w1' := update_tokens _ _).
  assert (w1' = w1) as ->.
  { subst w1' w1. unfold update_tokens, log. cbn [tokens trace].
    by rewrite <-app_assoc. }
  assert (Js.truthy (_retry retried) = true) as Hmarked by done.
  destruct (requestInstance transport refreshToken (Datatypes.S fuel) retried w1)
    as [[out w']|] eqn:Hcall; last first.
  { rewrite requestInstance_retried in Hcall by done. discriminate. }
  destruct (requestInstance_retried_world _ _ _ _ _ Hmarked Hcall)
    as (Htok & evs & Htrace & Hsend & _ & Hrefr).
  exists out, w', evs. split_and!; try done.
  - rewrite Htok. simpl.
    by rewrite getToken_setRefreshToken, getToken_setToken.
  - rewrite Htok. simpl. by rewrite getRefreshToken_setRefreshToken.
  - by rewrite (proj2 (proj2 (requestInterceptor_flags (tokens w1) retried))).
Qed.

(** C1. A 401 failure of a call that is not marked yet starts exactly one
    refresh attempt: the call is marked first, the refresh endpoint is then
    called at most once (exactly once when a refresh token is stored), and
    nothing marks or refreshes again. When the refresh call resolves with
    success the call is sent again exactly once, marked, right after the
    refresh call; when it does not, nothing is sent again. A 401 failure of
    a marked call starts no refresh: it is the generic handling, which only
    reports. *)
Theorem unauthorized_refreshes_at_most_once
    (fuel : nat) (error : AxiosError.t) (w : World S) :
  isUnauthorized error = true →
  (Js.truthy (_retry (AxiosError.config error)) = false →
     ∃ out w' evs,
       onRejected refreshToken (requestInstance transport refreshToken (Datatypes.S fuel)) error w
         = Some (out, w')
       ∧ trace w' = trace w ++ EvMarkRetry :: evs
       ∧ count isMarkRetry evs = 0
       ∧ count isRefresh evs ≤ 1
       ∧ (Js.truthy_string (getRefreshToken (tokens w)) = true → count isRefresh evs = 1)
       ∧ count isSend evs ≤ 1
       ∧ (∀ config, EvSend config ∈ evs → Js.truthy (_retry config) = true)
       ∧ count isSend evs ≤ count isRefresh evs
       ∧ (∀ rt pair code text,
            getRefreshToken (tokens w) = Some rt →
            rt ≠ "" →
            refreshToken (trace w ++ [EvMarkRetry]) rt = Resolved (Success pair code text) →
            ∃ rest,
              evs = EvRefresh rt
                    :: EvSend (requestInterceptor
                                 (setRefreshToken (refresh pair)
                                    (setToken (access pair) (tokens w)))
                                 (set_retry (Some true) (AxiosError.config error)))
                    :: rest
              ∧ count isSend evs = 1
              ∧ count isSend rest = 0
              ∧ count isRefresh rest = 0)
       ∧ (∀ rt,
            getRefreshToken (tokens w) = Some rt →
            (∀ pair code text,
               refreshToken (trace w ++ [EvMarkRetry]) rt
                 ≠ Resolved (Success pair code text)) →
            count isSend evs = 0))
  ∧ (Js.truthy (_retry (AxiosError.config error)) = true →
       ∀ reissue,
         onRejected (T:=T) refreshToken reissue error w = Some (handleError error w)
         ∧ (handleError (T:=T) error w).2 = mkWorld (tokens w) (trace w ++ reportOf error)
         ∧ count isRefresh (reportOf error) = 0
         ∧ count isMarkRetry (reportOf error) = 0
         ∧ count isSend (reportOf error) = 0).
Proof.
  intros H401. split.
  - intros Hretry. rewrite onRejected_refresh_flow by done. cbn zeta.
    set (retried := set_retry (Some true) (AxiosError.config error)).
    set (marked := AxiosError.mk _ retried _).
    destruct (getRefreshToken (tokens w)) as [rt|] eqn:Hrt; last first.
    { eexists _, _, []. split; [reflexivity|]. simpl. split_and!; try done; try lia.
      intros ? ?%elem_of_nil. done. }
    destruct (Js.truthy_string (Some rt)) eqn:Htruthy; last first.
    { eexists _, _, []. split; [reflexivity|]. simpl. split_and!; try done; try lia.
      - intros ? ?%elem_of_nil. done.
      - intros rt' ? ? ? [= <-] Hne. by destruct rt. }
    cbn [log trace].
    destruct (refreshToken (trace w ++ [EvMarkRetry]) rt)
      as [[pair code text|data code text]|refreshError] eqn:Hrefresh.
    + set (w1 := update_tokens _ _).
      assert (Js.truthy (_retry retried) = true) as Hmarked by done.
      destruct (requestInstance transport refreshToken (Datatypes.S fuel) retried w1)
        as [[out w']|] eqn:Hcall; last first.
      { rewrite requestInstance_retried in Hcall by done. discriminate. }
      destruct (requestInstance_retried_world _ _ _ _ _ Hmarked Hcall)
        as (Htok & evs & Htrace & Hsend & Hmark & Hrefr).
      exists out, w', (EvRefresh rt :: EvSend (requestInterceptor (tokens w1) retried) :: evs).
      split; [done|]. rewrite Htrace. subst w1. cbn [update_tokens log trace tokens].
      rewrite <-!app_assoc. cbn [count isMarkRetry isRefresh isSend].
      rewrite Hsend, Hmark, Hrefr. split_and!; try done; try lia.
      * intros config [?|[Heq|Hin]%elem_of_cons]%elem_of_cons; [done| |].
        -- injection Heq as ->.
           by rewrite (proj2 (proj2 (requestInterceptor_flags _ retried))).
        -- by apply count_isSend_zero in Hin.
      * intros rt' pair' code' text' [= <-] Hne Hsuccess.
        rewrite Hrefresh in Hsuccess. injection Hsuccess as <- <- <-.
        exists evs. by split_and!.
      * intros rt' [= <-] Hno. by destruct (Hno pair code text).
    + eexists _, _, (EvRefresh rt :: reportOf marked).
      split; [apply f_equal, surjective_pairing|].
      destruct (reportOf_counts marked) as (Hs & Hm & Hr).
      rewrite handleError_world. cbn [log trace tokens count isMarkRetry isRefresh isSend].
      rewrite <-!app_assoc, Hs, Hm, Hr. split_and!; try done; try lia.
      * intros config [?|Hin]%elem_of_cons; [done|].
        by apply (count_isSend_zero _ _ (proj1 (reportOf_counts marked))) in Hin.
      * intros rt' pair' code' text' [= <-] Hne Hsuccess.
        rewrite Hrefresh in Hsuccess. discriminate.
    + eexists _, _, [EvRefresh rt]. split; [reflexivity|].
      cbn [catchRefreshError update_tokens log trace tokens count isMarkRetry isRefresh isSend].
      rewrite <-!app_assoc. split_and!; try done; try lia.
      * intros config [?|?%elem_of_nil]%elem_of_cons; done.
      * intros rt' pair' code' text' [= <-] Hne Hsuccess.
        rewrite Hrefresh in Hsuccess. discriminate.
  - intros Hretry reissue. split_and!.
    + apply onRejected_terminal. by right.
    + apply handleError_world.
    + apply reportOf_counts.
    + apply reportOf_counts.
    + apply reportOf_counts.
Qed.

End ResponseInterceptorFacts.

Lemma refresh_rejection_clears_and_rethrows_witness :
  (∃ w',
     onRejected Scenario.refreshRejects Scenario.noReissue
       (Scenario.error401 Scenario.getUser) Scenario.world
       = Some (Thrown (Error "Network Error"), w')
     ∧ tokens w' = removeRefreshToken (removeToken Scenario.store)
     ∧ getToken (tokens w') = None
     ∧ getRefreshToken (tokens w') = None
     ∧ trace w' = [EvMarkRetry; EvRefresh "R1"])
  ∧ onRejected Scenario.refreshFails Scenario.noReissue
      (Scenario.error401 Scenario.getUser) Scenario.world
    = Some (Resolved (Failure None 401 "Unauthorized"),
            mkWorld Scenario.store [EvMarkRetry; EvRefresh "R1"; EvShowError "Unauthorized"]).
Proof.
  split.
  - apply (proj1 (refresh_rejection_clears_and_rethrows
                    Scenario.refreshRejects Scenario.noReissue
                    (Scenario.error401 Scenario.getUser) Scenario.world "R1"
                    localStorage_lawful eq_refl eq_refl eq_refl
                    (JsStringFacts.nonempty_ne _ _))
                 (Error "Network Error") eq_refl).
  - apply (proj1 (proj2 (refresh_rejection_clears_and_rethrows
                    Scenario.refreshFails Scenario.noReissue
                    (Scenario.error401 Scenario.getUser) Scenario.world "R1"
                    localStorage_lawful eq_refl eq_refl eq_refl
                    (JsStringFacts.nonempty_ne _ _))
                 None 400%Z "Refresh token expired" eq_refl)).
Defined.

(** C2 as the specification words it fails when the refresh call resolves
    with a failure response: nothing is thrown, both tokens stay in the
    store and the error handler is called. *)
Lemma refresh_failure_response_keeps_tokens :
  ∃ out w',
    onRejected Scenario.refreshFails Scenario.noReissue
      (Scenario.error401 Scenario.getUser) Scenario.world = Some (out, w')
    ∧ out = Resolved (Failure None 401 "Unauthorized")
    ∧ getToken (tokens w') = Some "abc"
    ∧ getRefreshToken (tokens w') = Some "R1"
    ∧ trace w' = [EvMarkRetry; EvRefresh "R1"; EvShowError "Unauthorized"].
Proof. eexists _, _. split; [reflexivity|]. by split_and!. Qed.

Lemma missing_refresh_token_clears_and_rethrows_witness :
  ∃ w',
    onRejected Scenario.refreshSucceeds Scenario.noReissue
      (Scenario.error401 Scenario.getUser) Scenario.worldNoRefresh
      = Some (Thrown (Error "No refresh token available"), w')
    ∧ tokens w' = removeRefreshToken (removeToken Scenario.storeNoRefresh)
    ∧ getToken (tokens w') = None
    ∧ getRefreshToken (tokens w') = None
    ∧ trace w' = [EvMarkRetry].
Proof.
  apply (missing_refresh_token_clears_and_rethrows
           Scenario.refreshSucceeds Scenario.noReissue
           (Scenario.error401 Scenario.getUser) Scenario.worldNoRefresh
           localStorage_lawful eq_refl eq_refl eq_refl).
Defined.

Lemma refresh_success_stores_tokens_then_reissues_witness :
  let retried := set_retry (Some true) Scenario.getUser in
  let w1 := mkWorld (setRefreshToken "R2" (setToken "A2" Scenario.store))
              [EvMarkRetry; EvRefresh "R1"] in
  ∃ out w' evs,
    onRejected Scenario.refreshSucceeds
      (requestInstance Scenario.transportOnce401 Scenario.refreshSucceeds 1)
      (Scenario.error401 Scenario.getUser) Scenario.world = Some (out, w')
    ∧ requestInstance Scenario.transportOnce401 Scenario.refreshSucceeds 1 retried w1
      = Some (out, w')
    ∧ tokens w' = tokens w1
    ∧ getToken (tokens w') = Some "A2"
    ∧ getRefreshToken (tokens w') = Some "R2"
    ∧ trace w' = trace w1 ++ EvSend (requestInterceptor (tokens w1) retried) :: evs
    ∧ Js.truthy (_retry (requestInterceptor (tokens w1) retried)) = true
    ∧ count isSend evs = 0
    ∧ count isRefresh evs = 0.
Proof.
  apply (refresh_success_stores_tokens_then_reissues
           Scenario.transportOnce401 Scenario.refreshSucceeds 0
           (Scenario.error401 Scenario.getUser) Scenario.world "R1"
           (mkTokenPair "A2" "R2") None None
           localStorage_lawful eq_refl eq_refl eq_refl
           (JsStringFacts.nonempty_ne _ _) eq_refl).
Defined.

(** The scenario of the specification: a 401, then a successful refresh. *)
Example scenario_refresh_and_retry :
  ∃ w',
    requestInstance Scenario.transportOnce401 Scenario.refreshSucceeds 2
      Scenario.getUser Scenario.world
      = Some (Resolved (Success "user 1" None None), w')
    ∧ getToken (tokens w') = Some "A2"
    ∧ getRefreshToken (tokens w') = Some "R2"
    ∧ count isSend (trace w') = 2
    ∧ count isRefresh (trace w') = 1.
Proof. eexists. split; [reflexivity|]. by split_and!. Qed.

Lemma unauthorized_refreshes_at_most_once_witness :
  (∃ out w' evs,
     onRejected Scenario.refreshSucceeds
       (requestInstance Scenario.transportOnce401 Scenario.refreshSucceeds 1)
       (Scenario.error401 Scenario.getUser) Scenario.world = Some (out, w')
     ∧ trace w' = trace Scenario.world ++ EvMarkRetry :: evs
     ∧ count isMarkRetry evs = 0
     ∧ count isRefresh evs ≤ 1
     ∧ (Js.truthy_string (getRefreshToken (tokens Scenario.world)) = true →
          count isRefresh evs = 1)
     ∧ count isSend evs ≤ 1
     ∧ (∀ config, EvSend config ∈ evs → Js.truthy (_retry config) = true)
     ∧ count isSend evs ≤ count isRefresh evs
     ∧ (∀ rt pair code text,
          getRefreshToken (tokens Scenario.world) = Some rt →
          rt ≠ "" →
          Scenario.refreshSucceeds (trace Scenario.world ++ [EvMarkRetry]) rt
            = Resolved (Success pair code text) →
          ∃ rest,
            evs = EvRefresh rt
                  :: EvSend (requestInterceptor
                               (setRefreshToken (refresh pair)
                                  (setToken (access pair) (tokens Scenario.world)))
                               (set_retry (Some true)
                                  (AxiosError.config (Scenario.error401 Scenario.getUser))))
                  :: rest
            ∧ count isSend evs = 1
            ∧ count isSend rest = 0
            ∧ count isRefresh rest = 0)
     ∧ (∀ rt,
          getRefreshToken (tokens Scenario.world) = Some rt →
          (∀ pair code text,
             Scenario.refreshSucceeds (trace Scenario.world ++ [EvMarkRetry]) rt
               ≠ Resolved (Success pair code text)) →
          count isSend evs = 0))
  ∧ onRejected (T:=string) Scenario.refreshSucceeds Scenario.noReissue
      (Scenario.error401 (set_retry (Some true) Scenario.getUser)) Scenario.world
    = Some (handleError (Scenario.error401 (set_retry (Some true) Scenario.getUser))
              Scenario.world).
Proof.
  split.
  - apply (proj1 (unauthorized_refreshes_at_most_once
                    Scenario.transportOnce401 Scenario.refreshSucceeds 0
                    (Scenario.error401 Scenario.getUser) Scenario.world eq_refl) eq_refl).
  - apply (proj1 (proj2 (unauthorized_refreshes_at_most_once
                    Scenario.transportOnce401 Scenario.refreshSucceeds 0
                    (Scenario.error401 (set_retry (Some true) Scenario.getUser))
                    Scenario.world eq_refl) eq_refl Scenario.noReissue)).
Defined.

(** ** The fulfilled handler *)

(** C5. A response whose body says [success: false] makes the fulfilled
    handler throw an ApiError with status 400 and the body's
    [errorMessage], whatever the transport status; a call whose transport
    answers so ends with that error thrown, whatever its flags, and the
    error handler is not called. *)
Theorem failure_body_throws_api_error
    {S : Type} `{TokenManager S} {T : Type}
    (transport : list Event → RequestConfig → TransportResult T)
    (refreshToken : list Event → string → Outcome (Response TokenPair))
    (data : option T) (errorCode : Z) (errorMessage : string) (status : Z) :
  let apiError :=
    ApiErr (ApiError.mk "ApiError" errorMessage
      (Some (ErrorResponse.mk 400 (Some (ErrorResponse.mkBody (Some errorMessage)))))) in
  onFulfilled (AxiosResponse.mk (Failure data errorCode errorMessage) status)
    = Thrown apiError
  ∧ ∀ (fuel : nat) (config : RequestConfig) (w : World S),
      transport (trace w) (requestInterceptor (tokens w) config)
        = Fulfilled (AxiosResponse.mk (Failure data errorCode errorMessage) status) →
      requestInstance transport refreshToken (Datatypes.S fuel) config w
        = Some (Thrown apiError,
                mkWorld (tokens w)
                  (trace w ++ [EvSend (requestInterceptor (tokens w) config)])).
Proof.
  intros apiError. split; [done|].
  intros fuel config w Htransport.
  by rewrite requestInstance_S, Htransport.
Qed.

Lemma failure_body_throws_api_error_witness :
  requestInstance Scenario.transportBusinessFailure Scenario.refreshSucceeds 1
    Scenario.getUser Scenario.world
  = Some (Thrown (ApiErr (ApiError.mk "ApiError" "Name taken"
            (Some (ErrorResponse.mk 400 (Some (ErrorResponse.mkBody (Some "Name taken"))))))),
          mkWorld Scenario.store
            [EvSend (requestInterceptor Scenario.store Scenario.getUser)]).
Proof.
  apply (proj2 (failure_body_throws_api_error
                  Scenario.transportBusinessFailure Scenario.refreshSucceeds
                  None 1001 "Name taken" 200)
           0 Scenario.getUser Scenario.world eq_refl).
Defined.

(** ** The generic failure handling *)

(** C8. A terminal failure (not a 401, or a 401 of a marked call): the
    error handler gets the body's [errorMessage] when there is one (a
    missing or empty one gives the transport error message), exactly when
    [silentError] is unset; then the error is thrown when [throwError] is
    set, and otherwise the caller gets a failure response with the
    transport status (500 when there is none, or when it is 0) and the same
    message. The token store is not touched. *)
Theorem terminal_failure_reported_then_thrown_or_returned
    {S : Type} `{TokenManager S} {T : Type}
    (refreshToken : list Event → string → Outcome (Response TokenPair))
    (reissue : RequestConfig → World S → option (Outcome (Response T) * World S))
    (error : AxiosError.t) (w : World S) :
  isUnauthorized error = false ∨ Js.truthy (_retry (AxiosError.config error)) = true →
  ∃ (message : string) (code : Z),
    (∀ m, responseErrorMessage error = Some m → m ≠ "" → message = m)
    ∧ (Js.truthy_string (responseErrorMessage error) = false →
         message = AxiosError.message error)
    ∧ (∀ s, responseStatus error = Some s → s ≠ 0%Z → code = s)
    ∧ (Js.truthy_number (responseStatus error) = false → code = 500%Z)
    ∧ onRejected refreshToken reissue error w =
        Some (if Js.truthy (throwError (AxiosError.config error))
              then Thrown (AxiosErr error)
              else Resolved (Failure None code message),
              mkWorld (tokens w)
                (trace w ++ if Js.truthy (silentError (AxiosError.config error))
                            then [] else [EvShowError message])).
Proof.
  intros Hterminal. exists (bestMessage error), (errorCodeOf error). split_and!.
  - unfold bestMessage. intros m -> Hm. by destruct m.
  - unfold bestMessage.
    by destruct (responseErrorMessage error) as [[|??]|].
  - unfold errorCodeOf. intros s -> Hs. by destruct s.
  - unfold errorCodeOf.
    by destruct (responseStatus error) as [[| |]|].
  - rewrite onRejected_terminal by done. f_equal.
    rewrite (surjective_pairing (handleError error w)).
    by rewrite handleError_outcome, handleError_world.
Qed.

Lemma terminal_failure_reported_then_thrown_or_returned_witness :
  ∃ (message : string) (code : Z),
    (∀ m, responseErrorMessage (Scenario.error503 Scenario.getUser) = Some m →
          m ≠ "" → message = m)
    ∧ (Js.truthy_string (responseErrorMessage (Scenario.error503 Scenario.getUser)) = false →
         message = AxiosError.message (Scenario.error503 Scenario.getUser))
    ∧ (∀ s, responseStatus (Scenario.error503 Scenario.getUser) = Some s →
          s ≠ 0%Z → code = s)
    ∧ (Js.truthy_number (responseStatus (Scenario.error503 Scenario.getUser)) = false →
         code = 500%Z)
    ∧ onRejected (T:=string) Scenario.refreshSucceeds Scenario.noReissue
        (Scenario.error503 Scenario.getUser) Scenario.world =
        Some (Resolved (Failure None code message),
              mkWorld Scenario.store ([] ++ [EvShowError message])).
Proof.
  apply (terminal_failure_reported_then_thrown_or_returned
           Scenario.refreshSucceeds Scenario.noReissue
           (Scenario.error503 Scenario.getUser) Scenario.world
           (or_introl eq_refl)).
Defined.

(** The scenario of the specification: a silenced failure that is not
    thrown is returned as a failure response and not reported. *)
Example scenario_silent_failure :
  let config := mkRequestConfig "/users/1" ∅ None (Some true) (Some false) None None in
  onRejected (T:=string) Scenario.refreshSucceeds Scenario.noReissue
    (Scenario.error503 config) Scenario.world
  = Some (Resolved (Failure None 503 "Service down"), Scenario.world).
Proof. reflexivity. Qed.

(** The falsy corner cases of the generic handling: an empty
    [errorMessage] gives way to the transport message, a status 0 to 500. *)
Example scenario_falsy_message_and_status :
  let error := AxiosError.mk "Network Error" Scenario.getUser
                 (Some (ErrorResponse.mk 0 (Some (ErrorResponse.mkBody (Some ""))))) in
  bestMessage error = "Network Error" ∧ errorCodeOf error = 500%Z.
Proof. by split. Qed.

(** ** The facade *)

(** C9. Before [createRequest] has run, a call of [request] fails at once
    with the "not initialized" error: nothing is sent and the world is as
    it was. Once [createRequest] has run, [request] is a call of the
    instance. *)
Theorem request_before_createRequest_throws
    {S : Type} `{TokenManager S} {T : Type}
    (transport : list Event → RequestConfig → TransportResult T)
    (refreshToken : list Event → string → Outcome (Response TokenPair))
    (fuel : nat) (args : RequestConfig) (w : World S) :
  request transport refreshToken initialModule fuel args w
    = Some (Thrown (Error "Request instance not initialized. Call createRequest first."), w)
  ∧ ∀ options,
      request transport refreshToken (createRequest options) fuel args w
        = requestInstance transport refreshToken fuel args w.
Proof. by split. Qed.

(** [createRequest] falls back to ten seconds when no timeout is given. *)
Example createRequest_default_timeout :
  instance (createRequest (mkRequestOptions "https://api.example" None))
    = Some (mkAxiosInstance "https://api.example" 10000).
Proof. reflexivity. Qed.

(** A value containing [$&] is not inserted as it is: the replacement text
    is read as a pattern, and [$&] stands for the matched placeholder. *)
Example scenario_dollar_pattern :
  substitutePathVariables [("name", PString "a$&b")] "/tags/{name}" = "/tags/a{name}b".
Proof. reflexivity. Qed.

Lemma requestInterceptor_fields
    {S : Type} `{TokenManager S} (store : S) (config : RequestConfig) :
  ignoreAuth (requestInterceptor store config) = ignoreAuth config
  ∧ pathVariables (requestInterceptor store config) = pathVariables config.
Proof.
  destruct (injectToken_fields store config) as (_ & Hpv & Hauth & _).
  unfold requestInterceptor.
  destruct (pathVariables (injectToken store config)) eqn:E;
    cbn [ignoreAuth pathVariables set_url]; split; congruence.
Qed.

(** The interceptor applied to a configuration it has already rewritten
    substitutes the path variables a second time. *)
Lemma requestInterceptor_twice_url
    {S : Type} `{TokenManager S} (store store' : S) (mark : option bool)
    (config : RequestConfig) :
  url (requestInterceptor store' (set_retry mark (requestInterceptor store config)))
    = match pathVariables config with
      | Some entries =>
          substitutePathVariables entries (substitutePathVariables entries (url config))
      | None => url config
      end.
Proof.
  rewrite requestInterceptor_url. cbn [pathVariables url set_retry].
  rewrite (proj2 (requestInterceptor_fields store config)).
  rewrite requestInterceptor_url. by destruct (pathVariables config).
Qed.

(** ** Whole calls *)

Section CallFacts.

Context {S : Type} `{TokenManager S} {T : Type}.
Variable transport : list Event → RequestConfig → TransportResult T.
Variable refreshToken : list Event → string → Outcome (Response TokenPair).

Lemma handleError_outcomeOf (error : AxiosError.t) (w : World S) :
  handleError (T:=T) error w
    = (outcomeOf error, mkWorld (tokens w) (trace w ++ reportOf error)).
Proof.
  rewrite (surjective_pairing (handleError error w)).
  by rewrite handleError_outcome, handleError_world.
Qed.

Lemma truthy_string_Some (s : string) : Js.truthy_string (Some s) = true → s ≠ "".
Proof. by destruct s. Qed.

(** With fuel for one re-issue, every call follows one of the seven
    paths. *)
Lemma requestInstance_path (fuel : nat) (config : RequestConfig) (w : World S) :
  ∃ out w' evs,
    requestInstance transport refreshToken (2 + fuel) config w = Some (out, w')
    ∧ trace w' = trace w ++ evs
    ∧ CallPath transport refreshToken config w out (tokens w') evs.
Proof.
  change (2 + fuel) with (Datatypes.S (Datatypes.S fuel)).
  rewrite requestInstance_S.
  set (first := requestInterceptor (tokens w) config).
  destruct (transport (trace w) first) as [response|message response] eqn:Hfirst.
  { eexists _, _, [EvSend first]. split; [reflexivity|].
    cbn [trace tokens log]. split; [done|]. by eapply PathFulfilled. }
  set (error := AxiosError.mk message first response).
  destruct (isUnauthorized error) eqn:H401; last first.
  { rewrite onRejected_terminal, handleError_outcomeOf by (by left).
    eexists _, _, (EvSend first :: reportOf error). split; [reflexivity|].
    cbn [update_tokens trace tokens log]. rewrite <-?app_assoc. split; [done|].
    eapply PathTerminal; eauto. }
  destruct (Js.truthy (_retry first)) eqn:Hretry.
  { rewrite onRejected_terminal, handleError_outcomeOf by (by right).
    eexists _, _, (EvSend first :: reportOf error). split; [reflexivity|].
    cbn [update_tokens trace tokens log]. rewrite <-?app_assoc. split; [done|].
    eapply PathTerminal; eauto. }
  rewrite onRejected_refresh_flow by done. cbn zeta.
  cbn [AxiosError.config AxiosError.message AxiosError.response error].
  change (tokens (log (EvSend first) w)) with (tokens w).
  destruct (Js.truthy_string (getRefreshToken (tokens w))) eqn:Htoken; last first.
  { eexists _, _, [EvSend first; EvMarkRetry]. split; [reflexivity|].
    cbn [catchRefreshError update_tokens trace tokens log]. rewrite <-?app_assoc.
    split; [done|]. by eapply PathNoRefreshToken. }
  destruct (getRefreshToken (tokens w)) as [rt|] eqn:Hrt; [|done].
  apply truthy_string_Some in Htoken.
  assert (trace (log EvMarkRetry (log (EvSend first) w))
            = trace w ++ [EvSend first; EvMarkRetry]) as ->
    by (cbn [trace log]; by rewrite <-app_assoc).
  destruct (refreshToken _ rt) as [[pair code text|data code text]|refreshError] eqn:Hrefresh.
  - rewrite requestInstance_retried by done.
    cbn [update_tokens trace tokens log].
    set (store := setRefreshToken (refresh pair) (setToken (access pair) (tokens w))).
    set (second := requestInterceptor store (set_retry (Some true) first)).
    assert (((trace w ++ [EvSend first]) ++ [EvMarkRetry]) ++ [EvRefresh rt]
              = trace w ++ [EvSend first; EvMarkRetry; EvRefresh rt]) as ->
      by (by rewrite <-!app_assoc).
    destruct (transport _ second) as [response2|message2 response2] eqn:Hsecond.
    + eexists _, _, [EvSend first; EvMarkRetry; EvRefresh rt; EvSend second].
      split; [reflexivity|]. cbn [update_tokens trace tokens log]. rewrite <-?app_assoc.
      split; [done|]. by eapply PathRetryFulfilled.
    + rewrite handleError_outcomeOf.
      eexists _, _, ([EvSend first; EvMarkRetry; EvRefresh rt; EvSend second] ++ reportOf _).
      split; [reflexivity|]. cbn [update_tokens trace tokens log]. rewrite <-?app_assoc.
      split; [done|]. by eapply PathRetryRejected.
  - rewrite handleError_outcomeOf.
    eexists _, _, ([EvSend first; EvMarkRetry; EvRefresh rt] ++ reportOf _).
    split; [reflexivity|]. cbn [update_tokens trace tokens log]. rewrite <-?app_assoc.
    split; [done|]. by eapply PathRefreshFailed.
  - eexists _, _, [EvSend first; EvMarkRetry; EvRefresh rt]. split; [reflexivity|].
    cbn [catchRefreshError update_tokens trace tokens log]. rewrite <-?app_assoc.
    split; [done|]. by eapply PathRefreshRejected.
Qed.

Lemma reportOf_le (error : AxiosError.t) : count isShowError (reportOf error) ≤ 1.
Proof. unfold reportOf. destruct (Js.truthy _); simpl; lia. Qed.

Lemma reportOf_silent (error : AxiosError.t) :
  Js.truthy (silentError (AxiosError.config error)) = true → reportOf error = [].
Proof. unfold reportOf. by intros ->. Qed.

Lemma errorCodeOf_nonzero (error : AxiosError.t) : errorCodeOf error ≠ 0%Z.
Proof.
  unfold errorCodeOf. by destruct (responseStatus error) as [[| |]|].
Qed.

Lemma onFulfilled_Success (response : AxiosResponse.t (Response T)) data code text :
  onFulfilled response = Resolved (Success data code text) →
  response = AxiosResponse.mk (Success data code text) (AxiosResponse.status response).
Proof.
  destruct response as [[d c t|d c t] status]; cbn; [|discriminate].
  by intros [= -> -> ->].
Qed.

Lemma onFulfilled_not_Failure (response : AxiosResponse.t (Response T)) data code text :
  onFulfilled response ≠ Resolved (Failure data code text).
Proof. by destruct response as [[d c t|d c t] status]. Qed.

Lemma onFulfilled_not_AxiosErr (response : AxiosResponse.t (Response T)) error :
  onFulfilled response ≠ Thrown (AxiosErr error).
Proof. by destruct response as [[d c t|d c t] status]. Qed.

(** The flags of the configuration sent again are those of the call. *)
Lemma second_flags (store store' : S) (config : RequestConfig) :
  silentError (requestInterceptor store' (set_retry (Some true) (requestInterceptor store config)))
    = silentError config
  ∧ throwError (requestInterceptor store' (set_retry (Some true) (requestInterceptor store config)))
    = throwError config.
Proof.
  destruct (requestInterceptor_flags store config) as (Hs & Ht & _).
  destruct (requestInterceptor_flags store'
              (set_retry (Some true) (requestInterceptor store config))) as (Hs' & Ht' & _).
  rewrite Hs', Ht'. by cbn [silentError throwError set_retry].
Qed.


(** X8. With [silentError] set on the call, the error handler is never
    called, on any path, the re-issued call included. *)
Theorem silent_call_never_reports (fuel : nat) (config : RequestConfig) (w : World S) :
  Js.truthy (silentError config) = true →
  ∃ out w' evs,
    requestInstance transport refreshToken (2 + fuel) config w = Some (out, w')
    ∧ trace w' = trace w ++ evs
    ∧ count isShowError evs = 0.
Proof.
  intros Hsilent.
  destruct (requestInstance_path fuel config w) as (out & w' & evs & Hcall & Htrace & Hpath).
  exists out, w', evs. split_and!; [done|done|]. clear Hcall Htrace.
  pose proof (proj1 (requestInterceptor_flags (tokens w) config)) as Hfirst.
  destruct Hpath; subst; try done.
  - rewrite reportOf_silent; [done|]. cbn [AxiosError.config]. by rewrite Hfirst.
  - rewrite reportOf_silent; [done|]. cbn [AxiosError.config silentError set_retry].
    by rewrite Hfirst.
  - rewrite reportOf_silent; [done|]. cbn [AxiosError.config].
    by rewrite (proj1 (second_flags _ _ _)).
Qed.


(** X10. A failure response that a call returns is made by the rejected
    handler, never passed on from the server: the transport rejected the
    last request the call sent, the code and the message are the ones the
    handler reads off that rejection, the response carries no data and a
    code that is not 0, and it is returned only when [throwError] is
    unset. *)
Theorem returned_failure_is_synthesized
    (fuel : nat) (config : RequestConfig) (w w' : World S) data code text :
  requestInstance transport refreshToken (2 + fuel) config w
    = Some (Resolved (Failure data code text), w') →
  data = None ∧ code ≠ 0%Z ∧ Js.truthy (throwError config) = false
  ∧ ∃ history sent message response rest,
      trace w' = history ++ EvSend sent :: rest
      ∧ count isSend rest = 0
      ∧ transport history sent = Rejected message response
      ∧ code = errorCodeOf (AxiosError.mk message sent response)
      ∧ text = bestMessage (AxiosError.mk message sent response).
Proof.
  intros Hcall.
  destruct (requestInstance_path fuel config w)
    as (out & w1 & evs & Hcall' & Htrace & Hpath).
  rewrite Hcall in Hcall'. injection Hcall' as Hout' Hw. symmetry in Hout'. subst w1.
  generalize dependent (tokens w'). intros store' Hpath.
  pose proof (proj1 (proj2 (requestInterceptor_flags (tokens w) config))) as Hfirst.
  assert (∀ error : AxiosError.t,
            outcomeOf (T:=T) error = Resolved (Failure data code text) →
            data = None ∧ code ≠ 0%Z
            ∧ Js.truthy (throwError (AxiosError.config error)) = false
            ∧ code = errorCodeOf error ∧ text = bestMessage error) as Hout.
  { intros error. unfold outcomeOf.
    destruct (Js.truthy (throwError _)); [discriminate|].
    intros [= <- <- <-]. split_and!; try done. apply errorCodeOf_nonzero. }
  destruct Hpath; subst.
  - by apply onFulfilled_not_Failure in Hout'.
  - apply Hout in Hout' as (? & ? & Hthrow & Hcode & Htext).
    cbn [AxiosError.config] in Hthrow. rewrite Hfirst in Hthrow.
    split_and!; try done.
    eexists (trace w), _, _, _, (reportOf _). split; [exact Htrace|].
    split; [apply reportOf_counts|]. by split_and!.
  - discriminate.
  - discriminate.
  - apply Hout in Hout' as (? & ? & Hthrow & Hcode & Htext).
    cbn [AxiosError.config throwError set_retry] in Hthrow. rewrite Hfirst in Hthrow.
    split_and!; try done.
    eexists (trace w), _, _, _, ([EvMarkRetry; EvRefresh _] ++ reportOf _).
    split; [exact Htrace|].
    split; [rewrite count_app; cbn [count isSend];
            by rewrite (proj1 (reportOf_counts _))|].
    by split_and!.
  - by apply onFulfilled_not_Failure in Hout'.
  - apply Hout in Hout' as (? & ? & Hthrow & Hcode & Htext).
    cbn [AxiosError.config] in Hthrow.
    rewrite (proj2 (second_flags _ _ _)) in Hthrow.
    split_and!; try done.
    eexists (trace w ++ [_; _; _]), _, _, _, (reportOf _).
    split; [rewrite Htrace, <-app_assoc; reflexivity|].
    split; [apply reportOf_counts|]. split; [eassumption|]. by split.
Qed.

(** X11. A success response that a call returns is the body the
    transport answered to the last request sent, unchanged: the module
    makes up no success. *)
Theorem returned_success_comes_from_transport
    (fuel : nat) (config : RequestConfig) (w w' : World S) data code text :
  requestInstance transport refreshToken (2 + fuel) config w
    = Some (Resolved (Success data code text), w') →
  ∃ history sent status,
    trace w' = history ++ [EvSend sent]
    ∧ transport history sent
      = Fulfilled (AxiosResponse.mk (Success data code text) status).
Proof.
  intros Hcall.
  destruct (requestInstance_path fuel config w) as (out & w1 & evs & Hcall' & Htrace & Hpath).
  rewrite Hcall in Hcall'. injection Hcall' as Hout' Hw. symmetry in Hout'. subst w1.
  generalize dependent (tokens w'). intros store' Hpath.
  assert (∀ error : AxiosError.t,
            outcomeOf (T:=T) error ≠ Resolved (Success data code text)) as Hout.
  { intros error. unfold outcomeOf. by destruct (Js.truthy (throwError _)). }
  destruct Hpath; subst; try discriminate; try (by apply Hout in Hout').
  - apply onFulfilled_Success in Hout'.
    exists (trace w), (requestInterceptor (tokens w) config), (AxiosResponse.status response).
    split; [done|]. congruence.
  - apply onFulfilled_Success in Hout'.
    eexists (trace w ++ [_; _; _]), _, (AxiosResponse.status response2).
    split; [rewrite Htrace, <-app_assoc; reflexivity|].
    rewrite <-Hout'. eassumption.
Qed.

(** X12. A transport failure is thrown to the caller only when
    [throwError] is set on the call; any other AxiosError a call throws is
    the rejection of the refresh endpoint itself. *)
Theorem thrown_transport_failure_needs_throwError
    (fuel : nat) (config : RequestConfig) (w w' : World S) (error : AxiosError.t) :
  requestInstance transport refreshToken (2 + fuel) config w
    = Some (Thrown (AxiosErr error), w') →
  Js.truthy (throwError config) = true
  ∨ ∃ history rt, refreshToken history rt = Thrown (AxiosErr error).
Proof.
  intros Hcall.
  destruct (requestInstance_path fuel config w) as (out & w1 & evs & Hcall' & _ & Hpath).
  rewrite Hcall in Hcall'. injection Hcall' as Hout' _. symmetry in Hout'.
  generalize dependent (tokens w1). intros store' Hpath.
  pose proof (proj1 (proj2 (requestInterceptor_flags (tokens w) config))) as Hfirst.
  assert (∀ e : AxiosError.t,
            outcomeOf (T:=T) e = Thrown (AxiosErr error) →
            Js.truthy (throwError (AxiosError.config e)) = true) as Hout.
  { intros e. unfold outcomeOf. by destruct (Js.truthy (throwError _)). }
  destruct Hpath; subst.
  - by apply onFulfilled_not_AxiosErr in Hout'.
  - left. apply Hout in Hout'. cbn [AxiosError.config] in Hout'. by rewrite <-Hfirst.
  - discriminate.
  - right. injection Hout' as ->. eauto.
  - left. apply Hout in Hout'. cbn [AxiosError.config throwError set_retry] in Hout'.
    by rewrite <-Hfirst.
  - by apply onFulfilled_not_AxiosErr in Hout'.
  - left. apply Hout in Hout'. cbn [AxiosError.config] in Hout'.
    by rewrite (proj2 (second_flags _ _ _)) in Hout'.
Qed.

(** X13. A call whose configuration already carries the retry mark opts
    out of the refresh flow: it sends once with one fuel, never marks,
    refreshes or sends again, leaves the token store alone and reports at
    most once. *)
Theorem marked_call_sends_once (fuel : nat) (config : RequestConfig) (w : World S) :
  Js.truthy (_retry config) = true →
  ∃ out w' evs,
    requestInstance transport refreshToken (1 + fuel) config w = Some (out, w')
    ∧ trace w' = trace w ++ EvSend (requestInterceptor (tokens w) config) :: evs
    ∧ tokens w' = tokens w
    ∧ count isSend evs = 0
    ∧ count isRefresh evs = 0
    ∧ count isMarkRetry evs = 0
    ∧ count isShowError evs ≤ 1.
Proof.
  intros Hmarked. change (1 + fuel) with (Datatypes.S fuel).
  rewrite requestInstance_retried by done.
  destruct (transport (trace w) _) as [response|message response].
  - eexists _, _, []. split; [reflexivity|]. cbn. split_and!; try done; lia.
  - rewrite handleError_outcomeOf.
    eexists _, _, (reportOf _). split; [reflexivity|].
    cbn [trace tokens log]. rewrite <-app_assoc.
    match goal with
    | |- context [reportOf ?e] =>
        destruct (reportOf_counts e) as (-> & -> & ->); pose proof (reportOf_le e)
    end.
    by split_and!.
Qed.

(** X14. After a successful refresh the request goes out again with the
    new access token: the interceptor runs again on the re-issued call and
    replaces the Authorization header of the first attempt. *)
Theorem reissued_request_carries_new_token
    (fuel : nat) (config : RequestConfig) (w : World S)
    message response (rt : string) (pair : TokenPair) code text :
  LawfulTokenManager S →
  Js.truthy (ignoreAuth config) = false →
  Js.truthy (_retry config) = false →
  transport (trace w) (requestInterceptor (tokens w) config) = Rejected message response →
  ErrorResponse.status <$> response = Some 401%Z →
  getRefreshToken (tokens w) = Some rt →
  rt ≠ "" →
  refreshToken (trace w ++ [EvSend (requestInterceptor (tokens w) config); EvMarkRetry]) rt
    = Resolved (Success pair code text) →
  access pair ≠ "" →
  ∃ out w' second evs,
    requestInstance transport refreshToken (2 + fuel) config w = Some (out, w')
    ∧ trace w' = trace w ++ [EvSend (requestInterceptor (tokens w) config);
                             EvMarkRetry; EvRefresh rt; EvSend second] ++ evs
    ∧ headers second !! "Authorization" = Some ("Bearer " +:+ access pair)
    ∧ getToken (tokens w') = Some (access pair).
Proof.
  intros Hlaw Hauth Hretry Hfirst H401 Hrt Hne Hrefresh Haccess.
  set (first := requestInterceptor (tokens w) config) in *.
  set (store := setRefreshToken (refresh pair) (setToken (access pair) (tokens w))).
  assert (headers (requestInterceptor store (set_retry (Some true) first))
            !! "Authorization" = Some ("Bearer " +:+ access pair)) as Hheader.
  { rewrite requestInterceptor_headers. unfold injectToken.
    cbn [ignoreAuth set_retry]. unfold first, store.
    rewrite (proj1 (requestInterceptor_fields (tokens w) config)), Hauth. cbn [negb].
    rewrite getToken_setRefreshToken, getToken_setToken.
    destruct (access pair) as [|c s] eqn:Ha; [done|].
    cbn [Js.truthy_string headers set_headers]. apply lookup_insert_eq. }
  assert (getToken store = Some (access pair)) as Hstore
    by (unfold store; by rewrite getToken_setRefreshToken, getToken_setToken).
  assert (isUnauthorized (AxiosError.mk message first response) = true) as Hun.
  { unfold isUnauthorized, responseStatus. cbn [AxiosError.response].
    rewrite H401. by apply bool_decide_eq_true. }
  assert (Js.truthy (_retry first) = false) as Hretry'
    by (unfold first; by rewrite (proj2 (proj2 (requestInterceptor_flags (tokens w) config)))).
  assert (Js.truthy_string (Some rt) = true) as Hrt' by (by destruct rt).
  change (2 + fuel) with (Datatypes.S (Datatypes.S fuel)).
  rewrite requestInstance_S. fold first. rewrite Hfirst.
  rewrite onRejected_refresh_flow by done. cbn zeta.
  cbn [AxiosError.config AxiosError.message AxiosError.response].
  change (tokens (log (EvSend first) w)) with (tokens w). rewrite Hrt, Hrt'.
  assert (trace (log EvMarkRetry (log (EvSend first) w))
            = trace w ++ [EvSend first; EvMarkRetry]) as ->
    by (cbn [trace log]; by rewrite <-app_assoc).
  rewrite Hrefresh, requestInstance_retried by done.
  cbn [update_tokens trace tokens log]. fold store.
  destruct (transport (_ ++ [EvRefresh rt]) _) as [response2|message2 response2].
  - eexists _, _, _, []. split; [reflexivity|]. cbn [update_tokens trace tokens log].
    split; [by rewrite <-!app_assoc|]. by split.
  - rewrite handleError_outcomeOf.
    eexists _, _, _, (reportOf _). split; [reflexivity|]. cbn [update_tokens trace tokens log].
    split; [by rewrite <-!app_assoc|]. by split.
Qed.

(** A 401 answered by a successful refresh: the call is sent, marked, the
    refresh endpoint is called, and the marked configuration goes through
    the interceptor and is sent again, with the new tokens in the store. *)
Lemma requestInstance_after_refresh
    (fuel : nat) (config : RequestConfig) (w : World S)
    message response (rt : string) (pair : TokenPair) code text :
  Js.truthy (_retry config) = false →
  transport (trace w) (requestInterceptor (tokens w) config) = Rejected message response →
  ErrorResponse.status <$> response = Some 401%Z →
  getRefreshToken (tokens w) = Some rt →
  rt ≠ "" →
  refreshToken (trace w ++ [EvSend (requestInterceptor (tokens w) config); EvMarkRetry]) rt
    = Resolved (Success pair code text) →
  ∃ out w' evs,
    requestInstance transport refreshToken (2 + fuel) config w = Some (out, w')
    ∧ trace w'
      = trace w
        ++ [EvSend (requestInterceptor (tokens w) config); EvMarkRetry; EvRefresh rt;
            EvSend (requestInterceptor
                      (setRefreshToken (refresh pair) (setToken (access pair) (tokens w)))
                      (set_retry (Some true) (requestInterceptor (tokens w) config)))]
        ++ evs
    ∧ count isSend evs = 0
    ∧ tokens w' = setRefreshToken (refresh pair) (setToken (access pair) (tokens w)).
Proof.
  intros Hretry Hfirst H401 Hrt Hne Hrefresh.
  set (first := requestInterceptor (tokens w) config) in *.
  set (store := setRefreshToken (refresh pair) (setToken (access pair) (tokens w))).
  assert (isUnauthorized (AxiosError.mk message first response) = true) as Hun.
  { unfold isUnauthorized, responseStatus. cbn [AxiosError.response].
    rewrite H401. by apply bool_decide_eq_true. }
  assert (Js.truthy (_retry first) = false) as Hretry'
    by (unfold first; by rewrite (proj2 (proj2 (requestInterceptor_flags (tokens w) config)))).
  assert (Js.truthy_string (Some rt) = true) as Hrt' by (by destruct rt).
  change (2 + fuel) with (Datatypes.S (Datatypes.S fuel)).
  rewrite requestInstance_S. fold first. rewrite Hfirst.
  rewrite onRejected_refresh_flow by done. cbn zeta.
  cbn [AxiosError.config AxiosError.message AxiosError.response].
  change (tokens (log (EvSend first) w)) with (tokens w). rewrite Hrt, Hrt'.
  assert (trace (log EvMarkRetry (log (EvSend first) w))
            = trace w ++ [EvSend first; EvMarkRetry]) as ->
    by (cbn [trace log]; by rewrite <-app_assoc).
  rewrite Hrefresh, requestInstance_retried by done.
  cbn [update_tokens trace tokens log]. fold store.
  destruct (transport (_ ++ [EvRefresh rt]) _) as [response2|message2 response2].
  - eexists _, _, []. split; [reflexivity|]. cbn [update_tokens trace tokens log].
    split; [by rewrite <-!app_assoc|]. by split.
  - rewrite handleError_outcomeOf.
    eexists _, _, (reportOf _). split; [reflexivity|]. cbn [update_tokens trace tokens log].
    split; [by rewrite <-!app_assoc|]. split; [apply reportOf_counts|done].
Qed.

(** X6. When a call is re-issued after a successful refresh, the
    interceptor runs again on the configuration it has already rewritten:
    the first request goes out with the template substituted once, the
    second one with the template substituted twice (so a placeholder that
    the first pass left in place can be replaced on the retry), and nothing
    else is sent. *)
Theorem reissued_url_substituted_twice
    (fuel : nat) (config : RequestConfig) (w : World S)
    message response (rt : string) (pair : TokenPair) code text :
  Js.truthy (_retry config) = false →
  transport (trace w) (requestInterceptor (tokens w) config) = Rejected message response →
  ErrorResponse.status <$> response = Some 401%Z →
  getRefreshToken (tokens w) = Some rt →
  rt ≠ "" →
  refreshToken (trace w ++ [EvSend (requestInterceptor (tokens w) config); EvMarkRetry]) rt
    = Resolved (Success pair code text) →
  ∃ out w' first second evs,
    requestInstance transport refreshToken (2 + fuel) config w = Some (out, w')
    ∧ trace w' = trace w ++ [EvSend first; EvMarkRetry; EvRefresh rt; EvSend second] ++ evs
    ∧ count isSend evs = 0
    ∧ url first
      = match pathVariables config with
        | Some entries => substitutePathVariables entries (url config)
        | None => url config
        end
    ∧ url second
      = match pathVariables config with
        | Some entries =>
            substitutePathVariables entries (substitutePathVariables entries (url config))
        | None => url config
        end.
Proof.
  intros Hretry Hfirst H401 Hrt Hne Hrefresh.
  destruct (requestInstance_after_refresh fuel config w message response rt pair code text)
    as (out & w' & evs & Hcall & Htrace & Hsend & _); try done.
  eexists out, w', _, _, evs. split; [done|]. split; [exact Htrace|].
  split; [done|]. split.
  - apply requestInterceptor_url.
  - apply requestInterceptor_twice_url.
Qed.

End CallFacts.

(** ** More on the request interceptor *)

(** X1. The request interceptor writes the Authorization header and the
    URL and nothing else: the flags, the path variables and the retry mark
    are as they were, every other header is as it was, and without path
    variables the URL is as it was. *)
Theorem request_interceptor_frame
    {S : Type} `{TokenManager S} (store : S) (config : RequestConfig) :
  ignoreAuth (requestInterceptor store config) = ignoreAuth config
  ∧ silentError (requestInterceptor store config) = silentError config
  ∧ throwError (requestInterceptor store config) = throwError config
  ∧ pathVariables (requestInterceptor store config) = pathVariables config
  ∧ _retry (requestInterceptor store config) = _retry config
  ∧ (pathVariables config = None →
       url (requestInterceptor store config) = url config)
  ∧ (∀ key, key ≠ "Authorization" →
       headers (requestInterceptor store config) !! key = headers config !! key).
Proof.
  destruct (requestInterceptor_fields store config) as (Hauth & Hpv).
  destruct (requestInterceptor_flags store config) as (Hsilent & Hthrow & Hretry).
  split_and!; try done.
  - intros Hnone. by rewrite requestInterceptor_url, Hnone.
  - intros key Hkey. rewrite requestInterceptor_headers. unfold injectToken.
    destruct (negb _); [|done].
    destruct (getToken store) as [token|]; [|done].
    destruct (Js.truthy_string _); [|done].
    cbn [headers set_headers]. by rewrite lookup_insert_ne.
Qed.

(** X2. Entries whose placeholder does not occur in the URL change
    nothing, and no error is raised for them: when none of the mapping's
    placeholders occurs, the URL goes out as it is. *)
Theorem substitution_without_occurrence
    (entries : list (string * PathValue)) (url : string) :
  (∀ key value, (key, value) ∈ entries →
     ¬ JsString.occursIn ("{" +:+ key +:+ "}") url) →
  substitutePathVariables entries url = url.
Proof.
  unfold substitutePathVariables.
  induction entries as [|[key value] entries IH]; intros Habsent; [done|].
  cbn [foldl]. unfold substituteEntry at 2. cbn [fst snd].
  rewrite JsStringFacts.replace_absent.
  - apply IH. intros k v Hin. apply (Habsent k v). apply elem_of_cons. by right.
  - apply (Habsent key value). apply elem_of_cons. by left.
Qed.

Lemma substitution_without_occurrence_witness :
  substitutePathVariables [("name", PString "x")] "/users/{id}" = "/users/{id}".
Proof.
  apply (substitution_without_occurrence [("name", PString "x")] "/users/{id}").
  intros key value Hin. apply list_elem_of_singleton in Hin.
  injection Hin as -> ->.
  apply JsStringFacts.splitAtFirst_None. reflexivity.
Defined.




Lemma substituteEntry_spec_witness :
  (JsString.occursIn ("{" +:+ "id" +:+ "}") "/a/{id}/b/{id}" →
     ∃ before after,
       "/a/{id}/b/{id}" = before +:+ ("{" +:+ "id" +:+ "}") +:+ after
       ∧ (∀ before' after',
            "/a/{id}/b/{id}" = before' +:+ ("{" +:+ "id" +:+ "}") +:+ after' →
            String.length before ≤ String.length before')
       ∧ substituteEntry "/a/{id}/b/{id}" ("id", PNumber 1)
         = before +:+ stringify (PNumber 1) +:+ after)
  ∧ (¬ JsString.occursIn ("{" +:+ "id" +:+ "}") "/a/{id}/b/{id}" →
       substituteEntry "/a/{id}/b/{id}" ("id", PNumber 1) = "/a/{id}/b/{id}").
Proof.
  apply (substituteEntry_spec "/a/{id}/b/{id}" "id" (PNumber 1)). reflexivity.
Defined.

Lemma append_empty (s : string) : s +:+ "" = s.
Proof.
  induction s as [|c s IH]; [done|].
  by rewrite JsStringFacts.append_cons, IH.
Qed.

(** X5. A value whose text is [$&] is read as "the matched text": the
    placeholder is replaced by itself and the URL goes out unchanged,
    whether or not the placeholder occurs. *)
Theorem dollar_ampersand_keeps_placeholder (url key : string) :
  substituteEntry url (key, PString "$&") = url.
Proof.
  unfold substituteEntry, JsString.replace. cbn [fst snd stringify].
  destruct (JsString.splitAtFirst _ url) as [[before after]|] eqn:Hsplit; [|done].
  apply JsStringFacts.splitAtFirst_sound in Hsplit.
  change (JsString.GetSubstitution ?m before after "$&") with (m +:+ "").
  by rewrite append_empty.
Qed.


Lemma silent_call_never_reports_witness :
  ∃ out w' evs,
    requestInstance Scenario2.transportDown Scenario.refreshSucceeds 2
      Scenario2.getUserSilent Scenario.world = Some (out, w')
    ∧ trace w' = trace Scenario.world ++ evs
    ∧ count isShowError evs = 0.
Proof.
  apply (silent_call_never_reports Scenario2.transportDown Scenario.refreshSucceeds 0
           Scenario2.getUserSilent Scenario.world eq_refl).
Defined.

Lemma returned_failure_is_synthesized_witness :
  (None : option string) = None ∧ 503%Z ≠ 0%Z
  ∧ Js.truthy (throwError Scenario.getUser) = false
  ∧ ∃ history sent message response rest,
      [EvSend (requestInterceptor Scenario.store Scenario.getUser);
       EvShowError "Service down"] = history ++ EvSend sent :: rest
      ∧ count isSend rest = 0
      ∧ Scenario2.transportDown history sent = Rejected message response
      ∧ 503%Z = errorCodeOf (AxiosError.mk message sent response)
      ∧ "Service down" = bestMessage (AxiosError.mk message sent response).
Proof.
  refine (returned_failure_is_synthesized Scenario2.transportDown Scenario.refreshSucceeds 0
           Scenario.getUser Scenario.world
           (mkWorld Scenario.store
              [EvSend (requestInterceptor Scenario.store Scenario.getUser);
               EvShowError "Service down"])
           None 503%Z "Service down" _).
  vm_compute. reflexivity.
Defined.

Lemma returned_success_comes_from_transport_witness :
  ∃ history sent status,
    [EvSend (requestInterceptor Scenario.store Scenario.getUser)] = history ++ [EvSend sent]
    ∧ Scenario2.transportUp history sent
      = Fulfilled (AxiosResponse.mk (Success "user 1" None None) status).
Proof.
  refine (returned_success_comes_from_transport
           Scenario2.transportUp Scenario.refreshSucceeds 0
           Scenario.getUser Scenario.world
           (mkWorld Scenario.store
              [EvSend (requestInterceptor Scenario.store Scenario.getUser)])
           "user 1" None None _).
  vm_compute. reflexivity.
Defined.

Lemma thrown_transport_failure_needs_throwError_witness :
  Js.truthy (throwError Scenario2.getUserThrow) = true
  ∨ ∃ history rt,
      Scenario.refreshSucceeds history rt
      = Thrown (AxiosErr (Scenario.error503
                            (requestInterceptor Scenario.store Scenario2.getUserThrow))).
Proof.
  refine (thrown_transport_failure_needs_throwError
           Scenario2.transportDown Scenario.refreshSucceeds 0
           Scenario2.getUserThrow Scenario.world
           (mkWorld Scenario.store
              [EvSend (requestInterceptor Scenario.store Scenario2.getUserThrow);
               EvShowError "Service down"])
           (Scenario.error503 (requestInterceptor Scenario.store Scenario2.getUserThrow))
           _).
  vm_compute. reflexivity.
Defined.

Lemma marked_call_sends_once_witness :
  ∃ out w' evs,
    requestInstance Scenario.transportOnce401 Scenario.refreshSucceeds 1
      Scenario2.getUserMarked Scenario.world = Some (out, w')
    ∧ trace w' = trace Scenario.world
                 ++ EvSend (requestInterceptor (tokens Scenario.world) Scenario2.getUserMarked)
                    :: evs
    ∧ tokens w' = tokens Scenario.world
    ∧ count isSend evs = 0
    ∧ count isRefresh evs = 0
    ∧ count isMarkRetry evs = 0
    ∧ count isShowError evs ≤ 1.
Proof.
  apply (marked_call_sends_once Scenario.transportOnce401 Scenario.refreshSucceeds 0
           Scenario2.getUserMarked Scenario.world eq_refl).
Defined.

Lemma reissued_request_carries_new_token_witness :
  ∃ out w' second evs,
    requestInstance Scenario.transportOnce401 Scenario.refreshSucceeds 2
      Scenario.getUser Scenario.world = Some (out, w')
    ∧ trace w' = trace Scenario.world
                 ++ [EvSend (requestInterceptor (tokens Scenario.world) Scenario.getUser);
                     EvMarkRetry; EvRefresh "R1"; EvSend second] ++ evs
    ∧ headers second !! "Authorization" = Some ("Bearer " +:+ "A2")
    ∧ getToken (tokens w') = Some "A2".
Proof.
  apply (reissued_request_carries_new_token
           Scenario.transportOnce401 Scenario.refreshSucceeds 0
           Scenario.getUser Scenario.world
           "Request failed with status code 401" Scenario.unauthorized
           "R1" (mkTokenPair "A2" "R2") None None
           localStorage_lawful eq_refl eq_refl eq_refl eq_refl eq_refl
           (JsStringFacts.nonempty_ne _ _) eq_refl (JsStringFacts.nonempty_ne _ _)).
Defined.

(** ** More on the storage-backed token manager *)

(** X15. The token manager reads and writes its own two keys only: every
    other key of the storage is as it was after any of its four writes. *)
Theorem local_storage_other_keys_untouched
    (ls : LocalStorage) (token key : string) :
  key ≠ TOKEN_KEY →
  key ≠ REFRESH_TOKEN_KEY →
  LocalStorageTokenManager.setToken token ls !! key = ls !! key
  ∧ LocalStorageTokenManager.removeToken ls !! key = ls !! key
  ∧ LocalStorageTokenManager.setRefreshToken token ls !! key = ls !! key
  ∧ LocalStorageTokenManager.removeRefreshToken ls !! key = ls !! key.
Proof.
  intros Htoken Hrefresh.
  unfold LocalStorageTokenManager.setToken, LocalStorageTokenManager.removeToken,
    LocalStorageTokenManager.setRefreshToken, LocalStorageTokenManager.removeRefreshToken.
  split_and!.
  - by rewrite lookup_insert_ne.
  - by rewrite lookup_delete_ne.
  - by rewrite lookup_insert_ne.
  - by rewrite lookup_delete_ne.
Qed.

Lemma local_storage_other_keys_untouched_witness :
  LocalStorageTokenManager.setToken "A2" Scenario2.storeWithTheme !! "theme"
    = Scenario2.storeWithTheme !! "theme"
  ∧ LocalStorageTokenManager.removeToken Scenario2.storeWithTheme !! "theme"
    = Scenario2.storeWithTheme !! "theme"
  ∧ LocalStorageTokenManager.setRefreshToken "A2" Scenario2.storeWithTheme !! "theme"
    = Scenario2.storeWithTheme !! "theme"
  ∧ LocalStorageTokenManager.removeRefreshToken Scenario2.storeWithTheme !! "theme"
    = Scenario2.storeWithTheme !! "theme".
Proof.
  apply (local_storage_other_keys_untouched Scenario2.storeWithTheme "A2" "theme");
    discriminate.
Defined.


(** X17. Removing a token that is not stored changes nothing, so a write
    followed by a removal gives back a storage that had no token. *)
Theorem local_storage_remove_absent (ls : LocalStorage) (token : string) :
  LocalStorageTokenManager.getToken ls = None →
  LocalStorageTokenManager.removeToken ls = ls
  ∧ LocalStorageTokenManager.removeToken (LocalStorageTokenManager.setToken token ls) = ls.
Proof.
  unfold LocalStorageTokenManager.getToken, LocalStorageTokenManager.setToken,
    LocalStorageTokenManager.removeToken.
  intros Hnone. split.
  - by apply delete_id.
  - rewrite delete_insert_eq. by apply delete_id.
Qed.

Lemma local_storage_remove_absent_witness :
  LocalStorageTokenManager.removeToken (∅ : LocalStorage) = ∅
  ∧ LocalStorageTokenManager.removeToken
      (LocalStorageTokenManager.setToken "abc" (∅ : LocalStorage)) = ∅.
Proof.
  apply (local_storage_remove_absent ∅ "abc"). reflexivity.
Defined.

(** ** More on createRequest *)

(** X18. The instance gets the base URL of the options and their timeout,
    or ten seconds when the options have none; a timeout of 0 is taken as
    none, so it becomes ten seconds too. After [createRequest] the
    instance is defined whatever the options. *)
Theorem createRequest_timeout (options : RequestOptions) :
  ∃ created,
    instance (createRequest options) = Some created
    ∧ baseURL created = opt_baseURL options
    ∧ timeout created ≠ 0%Z
    ∧ (∀ t, opt_timeout options = Some t → t ≠ 0%Z → timeout created = t)
    ∧ (opt_timeout options = None ∨ opt_timeout options = Some 0%Z →
         timeout created = 10000%Z).
Proof.
  eexists. split; [reflexivity|]. cbn [baseURL timeout]. split_and!.
  - done.
  - by destruct (opt_timeout options) as [[| |]|].
  - intros t -> Ht. by destruct t.
  - by intros [-> | ->].
Qed.

Lemma reissued_url_substituted_twice_witness :
  ∃ out w' first second evs,
    requestInstance Scenario.transportOnce401 Scenario.refreshSucceeds 2
      Scenario.getFriends Scenario.world = Some (out, w')
    ∧ trace w' = trace Scenario.world
                 ++ [EvSend first; EvMarkRetry; EvRefresh "R1"; EvSend second] ++ evs
    ∧ count isSend evs = 0
    ∧ url first
      = match pathVariables Scenario.getFriends with
        | Some entries => substitutePathVariables entries (url Scenario.getFriends)
        | None => url Scenario.getFriends
        end
    ∧ url second
      = match pathVariables Scenario.getFriends with
        | Some entries =>
            substitutePathVariables entries
              (substitutePathVariables entries (url Scenario.getFriends))
        | None => url Scenario.getFriends
        end.
Proof.
  apply (reissued_url_substituted_twice
           Scenario.transportOnce401 Scenario.refreshSucceeds 0
           Scenario.getFriends Scenario.world
           "Request failed with status code 401" Scenario.unauthorized
           "R1" (mkTokenPair "A2" "R2") None None);
    [reflexivity | reflexivity | reflexivity | reflexivity
    | apply JsStringFacts.nonempty_ne | reflexivity].
Defined.

(** The template that names a placeholder twice, through a 401 and a
    refresh: the second placeholder is left in the first request and
    replaced in the second. *)
Example scenario_friends_retry :
  ∃ out w' first second,
    requestInstance Scenario.transportOnce401 Scenario.refreshSucceeds 2
      Scenario.getFriends Scenario.world = Some (out, w')
    ∧ trace w' = [EvSend first; EvMarkRetry; EvRefresh "R1"; EvSend second]
    ∧ url first = "/users/1/friends/{id}"
    ∧ url second = "/users/1/friends/1".
Proof. eexists _, _, _, _. split; [reflexivity|]. by split_and!. Qed.

(** The path variables of the scenarios are JavaScript values. *)
Example scenario_values_representable :
  Forall (λ config,
            Forall (λ entry : string * PathValue, representable entry.2 = true)
              (default [] (pathVariables config)))
    [Scenario.getUser; Scenario.getUserNoAuth; Scenario.getFriends;
     Scenario2.getUserSilent; Scenario2.getUserMarked; Scenario2.getUserThrow].
Proof. repeat constructor. Qed.
